(** * TopicTracker: scripts/update-progress.py

    A shallow embedding of the progress updater and the properties of its
    metrics, velocity, phase resolution and document merge.

    Conventions of the embedding.
    - An issue is the JSON object of the tracker's list endpoint, read through
      the five keys the script touches.
    - Instants are POSIX timestamps counted in microseconds (the resolution
      of [datetime]); rates are exact rationals.  The script computes both in
      binary floating point; the embedding keeps the exact quantities.  For
      closing instants on whole seconds, as the tracker sends them, and a
      clock read to the microsecond, the comparison of the two floats and the
      comparison of the exact instants agree.
    - A Python object loaded from, or dumped to, the progress file is a tree
      ([value]) with text keys; dictionaries keep their insertion order.  A
      file in which two places share one object (YAML anchors and aliases)
      is outside the embedding.
    - An exception is the [Raise] branch of [outcome].
    - What the network, the clock and the file system do during a run is
      given by an [environment]; the file and the actions of the run are the
      [world]. *)

From Stdlib Require Import List String Ascii ZArith QArith Qabs Bool Lia.
From Stdlib Require Import Permutation Sorted DecimalString.
Import ListNotations.
Close Scope Q_scope.
Open Scope string_scope.

(* ------------------------------------------------------------------ *)
(** ** Exceptions *)

Inductive exn : Type :=
| KeyError (key : string)
| TypeError
| AttributeError
| ValueError
| OSError
| RequestException
| YAMLError
| UnicodeDecodeError.          (* a ValueError of its own kind *)

Inductive outcome (A : Type) : Type :=
| Ok (a : A)
| Raise (e : exn).

Arguments Ok {A} a.
Arguments Raise {A} e.

Definition bind {A B : Type} (m : outcome A) (k : A -> outcome B) : outcome B :=
  match m with
  | Ok a => k a
  | Raise e => Raise e
  end.

Notation "x <- m ;; k" := (bind m (fun x => k))
  (at level 61, m at next level, right associativity).

(** A list comprehension whose condition can raise. *)
Fixpoint filterM {A : Type} (p : A -> outcome bool) (l : list A) : outcome (list A) :=
  match l with
  | [] => Ok []
  | x :: rest =>
      b <- p x ;;
      keep <- filterM p rest ;;
      Ok (if b then x :: keep else keep)
  end.

(** A loop that appends one computed element per item. *)
Fixpoint mapM {A B : Type} (f : A -> outcome B) (l : list A) : outcome (list B) :=
  match l with
  | [] => Ok []
  | x :: rest =>
      y <- f x ;;
      ys <- mapM f rest ;;
      Ok (y :: ys)
  end.

(* ------------------------------------------------------------------ *)
(** ** Python objects *)

#[local] Unset Elimination Schemes.
Inductive value : Type :=
| VNone
| VBool (b : bool)
| VInt (n : Z)
| VFloat (q : Q)
| VStr (s : string)
| VList (l : list value)
| VDict (d : list (string * value)).
#[local] Set Elimination Schemes.

(** A [dict] with text keys, in insertion order. *)
Definition pydict : Type := list (string * value).

Fixpoint dict_get (d : pydict) (k : string) : option value :=
  match d with
  | [] => None
  | (k', v) :: rest => if String.eqb k' k then Some v else dict_get rest k
  end.

(** [d[k] = v]: an existing key keeps its place, a new key goes last. *)
Fixpoint dict_set (d : pydict) (k : string) (v : value) : pydict :=
  match d with
  | [] => [(k, v)]
  | (k', v') :: rest =>
      if String.eqb k' k then (k', v) :: rest else (k', v') :: dict_set rest k v
  end.

(** [d.update(other)] *)
Definition dict_update (d other : pydict) : pydict :=
  fold_left (fun acc kv => dict_set acc (fst kv) (snd kv)) other d.

(** [o[k]] *)
Definition getitem (o : value) (k : string) : outcome value :=
  match o with
  | VDict d =>
      match dict_get d k with
      | Some v => Ok v
      | None => Raise (KeyError k)
      end
  | _ => Raise TypeError
  end.

(** [o[k] = v] *)
Definition setitem (o : value) (k : string) (v : value) : outcome value :=
  match o with
  | VDict d => Ok (VDict (dict_set d k v))
  | _ => Raise TypeError
  end.

(** [o.update(other)] *)
Definition update (o : value) (other : pydict) : outcome value :=
  match o with
  | VDict d => Ok (VDict (dict_update d other))
  | _ => Raise AttributeError
  end.

(** [o[k][k2] = v] and the like: the object under [k] is changed in place,
    which on a tree is: read it, change it, put it back under the same key. *)
Definition within (o : value) (k : string) (f : value -> outcome value) : outcome value :=
  inner <- getitem o k ;;
  inner' <- f inner ;;
  setitem o k inner'.

(** [o == "text"] *)
Definition eq_str (o : value) (s : string) : bool :=
  match o with
  | VStr s' => String.eqb s' s
  | _ => false
  end.

(** [o > k] for an integer literal [k] *)
Definition gt_int (o : value) (k : Z) : outcome bool :=
  match o with
  | VInt n => Ok (k <? n)%Z
  | VBool b => Ok (k <? (if b then 1 else 0))%Z
  | VFloat q => Ok (negb (Qle_bool q (inject_Z k)))
  | _ => Raise TypeError
  end.

(** [round(x, 2)] on an exact rational: the nearest multiple of 1/100, a
    tie going to the even one. *)
Definition round2 (x : Q) : Q :=
  let n := (Qnum x * 100)%Z in
  let d := Zpos (Qden x) in
  let lo := (n / d)%Z in
  let r := (n mod d)%Z in
  let up :=
    match (2 * r ?= d)%Z with
    | Lt => false
    | Gt => true
    | Eq => Z.odd lo
    end in
  ((if up then lo + 1 else lo)%Z # 100)%Q.

(* ------------------------------------------------------------------ *)
(** ** Issues *)

(** One element of [i["labels"]]; [name] is [label["name"]]. *)
Record label : Type := { name : string }.

(** [i["closed_at"]] as [datetime.fromisoformat(...).timestamp()] meets it. *)
Inductive closed_at_field : Type :=
| Null                      (* JSON null: [None.replace] raises *)
| Malformed                 (* a text that [fromisoformat] rejects *)
| Instant (t : Z).          (* a valid text; [t] is its POSIX time in microseconds *)

Record issue : Type := {
  title : string;                    (* i["title"] *)
  state : string;                    (* i["state"] *)
  labels : list label;               (* i["labels"] *)
  pull_request : option string;      (* i.get("pull_request"): absent, or the
                                        pull-request link object (its url) *)
  closed_at : closed_at_field        (* i["closed_at"] *)
}.

(** Python truth value of [i.get("pull_request")]: the link object of the
    tracker is never empty, so it is true exactly when the key is there. *)
Definition truthy {A : Type} (o : option A) : bool :=
  match o with
  | Some _ => true
  | None => false
  end.

(** [sub in text] *)
Fixpoint contains (text sub : string) : bool :=
  match text with
  | EmptyString => prefix sub EmptyString
  | String _ rest => prefix sub text || contains rest sub
  end.

(* ------------------------------------------------------------------ *)
(** ** get_project_metrics *)

Definition get_project_metrics (issues : list issue) : pydict :=
  let total :=
    List.length (filter (fun i => negb (truthy (pull_request i))) issues) in
  let completed :=
    List.length (filter (fun i => (state i =? "closed")
                                  && negb (truthy (pull_request i))) issues) in
  let in_progress :=
    List.length (filter (fun i => (state i =? "open")
                                  && existsb (fun label => name label =? "in-progress")
                                             (labels i)) issues) in
  let blocked :=
    List.length (filter (fun i => (state i =? "open")
                                  && existsb (fun label => name label =? "blocked")
                                             (labels i)) issues) in
  [ ("total_tasks", VInt (Z.of_nat total));
    ("completed_tasks", VInt (Z.of_nat completed));
    ("in_progress_tasks", VInt (Z.of_nat in_progress));
    ("blocked_tasks", VInt (Z.of_nat blocked)) ].

(* ------------------------------------------------------------------ *)
(** ** calculate_velocity *)

(** [7 * 24 * 60 * 60] seconds, in microseconds. *)
Definition seven_days : Z := (7 * 24 * 60 * 60) * 1000000.

(** [datetime.fromisoformat(i["closed_at"].replace("Z", "+00:00")).timestamp()] *)
Definition closed_timestamp (i : issue) : outcome Z :=
  match closed_at i with
  | Null => Raise AttributeError
  | Malformed => Raise ValueError
  | Instant t => Ok t
  end.

(** [now] is the one reading of [datetime.now(timezone.utc)]. *)
Definition calculate_velocity (now : Z) (issues : list issue) : outcome Q :=
  let closed_issues :=
    filter (fun i => (state i =? "closed")
                     && negb (truthy (pull_request i))) issues in
  match closed_issues with
  | [] => Ok 0%Q
  | _ :: _ =>
      let seven_days_ago := (now - seven_days)%Z in
      recent_closed <-
        filterM (fun i => t <- closed_timestamp i ;; Ok (seven_days_ago <? t)%Z)
                closed_issues ;;
      Ok (Z.of_nat (List.length recent_closed) # 7)%Q
  end.

(* ------------------------------------------------------------------ *)
(** ** get_phase_status *)

Definition phase_mapping : list (Z * list string) :=
  [ (1%Z, ["Core Data Models"; "Thread-Safe Message Store"; "Mock SNS Endpoint";
           "Result Pattern Integration"]);
    (2%Z, ["Basic Test Client"; "Verification Methods"; "TUnit Test Helpers"]);
    (3%Z, ["Query Endpoints"; "Advanced Queries"; "ASP.NET Core Integration"]);
    (4%Z, ["Basic Web UI"; "Advanced UI Features"; "Developer Tools"]);
    (5%Z, ["Aspire Resource"; "Aspire Dashboard"]);
    (6%Z, ["Performance Optimization"; "NuGet Package"; "Documentation"]) ].

Definition phase_names : list (Z * string) :=
  [ (1%Z, "Core Foundation");
    (2%Z, "Testing Infrastructure");
    (3%Z, "API & Integration");
    (4%Z, "Developer Experience");
    (5%Z, "Platform Integration");
    (6%Z, "Production Readiness") ].

(** [table[n]] on a dict with integer keys (the missing key is not recorded
    in the exception). *)
Fixpoint int_getitem {A : Type} (table : list (Z * A)) (n : Z) : outcome A :=
  match table with
  | [] => Raise (KeyError "")
  | (m, a) :: rest => if (m =? n)%Z then Ok a else int_getitem rest n
  end.

(** [phase_issues] of one pass of the loop. *)
Definition phase_issues (task_titles : list string) (issues : list issue) : list issue :=
  filter (fun i => existsb (fun t => contains (title i) t) task_titles) issues.

(** The [status] text one pass of the loop settles on. *)
Definition phase_status (task_titles : list string) (issues : list issue) : string :=
  let phase_issues := phase_issues task_titles issues in
  let total := List.length phase_issues in
  let completed := List.length (filter (fun i => state i =? "closed") phase_issues) in
  if (completed =? total)%nat && (0 <? total)%nat then "completed"
  else if (0 <? completed)%nat then "in_progress"
  else if existsb (fun i => (state i =? "open")
                            && existsb (fun label => name label =? "in-progress")
                                       (labels i)) phase_issues
  then "in_progress"
  else "not_started".

(** One pass of the loop: the record appended to [phases]. *)
Definition phase_record (issues : list issue) (entry : Z * list string) : outcome pydict :=
  let phase_num := fst entry in
  let task_titles := snd entry in
  let phase_issues := phase_issues task_titles issues in
  let total := List.length phase_issues in
  let completed := List.length (filter (fun i => state i =? "closed") phase_issues) in
  let status := phase_status task_titles issues in
  phase_name <- int_getitem phase_names phase_num ;;
  Ok [ ("phase", VInt phase_num);
       ("name", VStr phase_name);
       ("status", VStr status);
       ("tasks_total", VInt (Z.of_nat total));
       ("tasks_completed", VInt (Z.of_nat completed)) ].

Definition get_phase_status (issues : list issue) : outcome (list pydict) :=
  mapM (phase_record issues) phase_mapping.

(* ------------------------------------------------------------------ *)
(** ** The world of one run *)

(** The progress file.  [yaml.dump] followed by [yaml.safe_load] gives the
    tree back, so a readable file is identified with the tree it denotes. *)
Inductive file_state : Type :=
| Missing                       (* no file at the path: [open] raises *)
| Undecodable                   (* bytes that are not text in the encoding
                                   of [open]: reading them in
                                   [yaml.safe_load] raises *)
| Unparsable                    (* text that is not YAML: [yaml.safe_load]
                                   raises *)
| Emptied                       (* zero bytes: [yaml.safe_load] returns None *)
| Document (doc : value).

(** The body of the tracker's answer once [response.json()] has decoded it. *)
Inductive response_json : Type :=
| IssueArray (issues : list issue)      (* a success status: the JSON array *)
| ErrorObject (message : string).       (* an error status (bad credentials,
                                           not found, rate limit): the object
                                           {"message": ..., ...} *)

(** What [requests.get] and [response.json()] do in this run. *)
Inductive fetch_outcome : Type :=
| FetchRaises (e : exn)                 (* transport failure, undecodable body *)
| FetchReturns (body : response_json).

(** What is in the file after a dump that raised: the part of the text that
    was flushed before the failure. *)
Inductive remains : Type :=
| NothingFlushed                (* no byte reached the file *)
| PartUnreadable                (* a beginning of the text that is not YAML *)
| PartReadable (doc : value).   (* a beginning of the text that is YAML, and
                                   the document it denotes *)

Definition left_on_disk (flushed : remains) : file_state :=
  match flushed with
  | NothingFlushed => Emptied
  | PartUnreadable => Unparsable
  | PartReadable doc => Document doc
  end.

(** What [open(progress_file, 'w')] and [yaml.dump] do in this run.
    Opening for writing empties the file before anything is dumped. *)
Inductive write_outcome : Type :=
| WriteSucceeds
| OpenDenied                    (* [open] raises: the file is left as it was *)
| DumpRaises (e : exn) (flushed : remains).
                                (* [open] succeeded, [yaml.dump] raised [e]
                                   with [flushed] in the file *)

Record environment : Type := {
  fetch : fetch_outcome;
  now : Z;                      (* [datetime.now(timezone.utc)] in calculate_velocity *)
  stamp : string;               (* [datetime.now(timezone.utc).isoformat()] in the merge *)
  write : write_outcome
}.

Inductive event : Type :=
| OpenedForRead
| HttpGet
| OpenedForWrite
| Dumped (doc : value)
| PrintedProgress (completed total : value)
| PrintedVelocity (shown : string).   (* the text [{velocity:.2f}] puts in the
                                         second line *)

Record world : Type := {
  disk : file_state;
  trace : list event            (* what the run did so far, oldest first *)
}.

Definition io (A : Type) : Type := world -> world * outcome A.

Definition io_bind {A B : Type} (m : io A) (k : A -> io B) : io B :=
  fun w =>
    match m w with
    | (w', Ok a) => k a w'
    | (w', Raise e) => (w', Raise e)
    end.

Notation "x <~ m ;; k" := (io_bind m (fun x => k))
  (at level 61, m at next level, right associativity).

Definition pure {A : Type} (m : outcome A) : io A := fun w => (w, m).

Definition emit (e : event) : io unit :=
  fun w => ({| disk := disk w; trace := trace w ++ [e] |}, Ok tt).

Definition set_disk (f : file_state) : io unit :=
  fun w => ({| disk := f; trace := trace w |}, Ok tt).

(** [with open(progress_file, 'r') as f: progress = yaml.safe_load(f)] *)
Definition load_progress : io value :=
  fun w =>
    match disk w with
    | Missing => (w, Raise OSError)
    | Undecodable => (fst (emit OpenedForRead w), Raise UnicodeDecodeError)
    | Unparsable => (fst (emit OpenedForRead w), Raise YAMLError)
    | Emptied => (fst (emit OpenedForRead w), Ok VNone)
    | Document doc => (fst (emit OpenedForRead w), Ok doc)
    end.

(** [get_issues()]: one request; an error status is not checked, its decoded
    body is returned like any other. *)
Definition get_issues (env : environment) : io response_json :=
  _ <~ emit HttpGet ;;
  match fetch env with
  | FetchRaises e => pure (Raise e)
  | FetchReturns body => pure (Ok body)
  end.

(** The first [for i in issues] over what [get_issues] returned.  Iterating
    the error object yields its keys, which are texts, and [i.get] on a text
    raises. *)
Definition iterate (body : response_json) : outcome (list issue) :=
  match body with
  | IssueArray issues => Ok issues
  | ErrorObject _ => Raise AttributeError
  end.

(* ------------------------------------------------------------------ *)
(** ** update_progress_file *)

(** The loop "Determine current phase": the first record whose status is
    "in_progress" sets the two fields, then [break]. *)
Fixpoint determine_current_phase (phases : list pydict) (progress : value) : outcome value :=
  match phases with
  | [] => Ok progress
  | phase :: rest =>
      status <- getitem (VDict phase) "status" ;;
      if eq_str status "in_progress" then
        number <- getitem (VDict phase) "phase" ;;
        progress <- within progress "current_status"
                      (fun cs => setitem cs "phase" number) ;;
        phase_name <- getitem (VDict phase) "name" ;;
        within progress "current_status"
          (fun cs => setitem cs "phase_name" phase_name)
      else determine_current_phase rest progress
  end.

(** The block "Update health status". *)
Definition update_health (progress : value) : outcome value :=
  metrics <- getitem progress "metrics" ;;
  blocked <- getitem metrics "blocked_tasks" ;;
  red <- gt_int blocked 2 ;;
  if red then
    within progress "current_status" (fun cs => setitem cs "health" (VStr "red"))
  else
    metrics <- getitem progress "metrics" ;;
    blocked <- getitem metrics "blocked_tasks" ;;
    yellow <- gt_int blocked 0 ;;
    if yellow then
      within progress "current_status" (fun cs => setitem cs "health" (VStr "yellow"))
    else
      within progress "current_status" (fun cs => setitem cs "health" (VStr "green")).

(** The statements between "Update progress" and "Write updated progress". *)
Definition merge (stamp : string) (metrics : pydict) (velocity : Q)
    (phases : list pydict) (progress : value) : outcome value :=
  progress <- within progress "current_status"
                (fun cs => setitem cs "last_updated" (VStr stamp)) ;;
  progress <- within progress "metrics" (fun m => update m metrics) ;;
  progress <- within progress "metrics"
                (fun m => within m "velocity"
                   (fun v => setitem v "current" (VFloat (round2 velocity)))) ;;
  progress <- setitem progress "phases" (VList (map VDict phases)) ;;
  progress <- determine_current_phase phases progress ;;
  update_health progress.

(** One decimal digit. *)
Definition digit (d : Z) : string :=
  String (ascii_of_nat (48 + Z.to_nat d)) EmptyString.

(** [f"{x:.2f}"] on an exact rational: the sign, the whole part, a point and
    the two digits of the hundredths [x] rounds to. *)
Definition format_2f (x : Q) : string :=
  let k := Z.abs (Qnum (round2 x)) in
  (if (Qnum x <? 0)%Z then "-" else "")
  ++ NilZero.string_of_uint (N.to_uint (Z.to_N (k / 100)))
  ++ "." ++ digit ((k / 10) mod 10) ++ digit (k mod 10).

(** [with open(progress_file, 'w') as f: yaml.dump(progress, f, ...)] *)
Definition dump_progress (env : environment) (progress : value) : io unit :=
  match write env with
  | OpenDenied => pure (Raise OSError)
  | DumpRaises e flushed =>
      _ <~ set_disk Emptied ;;
      _ <~ emit OpenedForWrite ;;
      _ <~ set_disk (left_on_disk flushed) ;;
      pure (Raise e)
  | WriteSucceeds =>
      _ <~ set_disk Emptied ;;
      _ <~ emit OpenedForWrite ;;
      _ <~ set_disk (Document progress) ;;
      emit (Dumped progress)
  end.

Definition update_progress_file (env : environment) : io unit :=
  progress <~ load_progress ;;
  body <~ get_issues env ;;
  issues <~ pure (iterate body) ;;
  let metrics := get_project_metrics issues in
  velocity <~ pure (calculate_velocity (now env) issues) ;;
  phases <~ pure (get_phase_status issues) ;;
  progress <~ pure (merge (stamp env) metrics velocity phases progress) ;;
  _ <~ dump_progress env progress ;;
  completed <~ pure (getitem (VDict metrics) "completed_tasks") ;;
  total <~ pure (getitem (VDict metrics) "total_tasks") ;;
  _ <~ emit (PrintedProgress completed total) ;;
  emit (PrintedVelocity (format_2f velocity)).

(** A run from a fresh trace. *)
Definition run (env : environment) (file : file_state) : world * outcome unit :=
  update_progress_file env {| disk := file; trace := [] |}.

(* ------------------------------------------------------------------ *)
(** ** Vocabulary of the specification *)

(** How many elements of a sequence satisfy a test. *)
Fixpoint count {A : Type} (p : A -> bool) (l : list A) : nat :=
  match l with
  | [] => 0
  | x :: rest => (if p x then 1 else 0) + count p rest
  end.

(** The issue has no pull-request marker. *)
Definition without_marker (i : issue) : bool :=
  match pull_request i with
  | None => true
  | Some _ => false
  end.

(** The issue is in the given state. *)
Definition in_state (s : string) (i : issue) : bool :=
  if string_dec (state i) s then true else false.

(** The labels of the issue contain the given text. *)
Definition carries (text : string) (i : issue) : bool :=
  if in_dec string_dec text (map name (labels i)) then true else false.

(** The issue has a valid closing instant later than [bound]. *)
Definition closed_after (bound : Z) (i : issue) : bool :=
  match closed_at i with
  | Instant t => (bound <? t)%Z
  | _ => false
  end.

(** [sub] occurs in [text]. *)
Definition occurs_in (sub text : string) : Prop :=
  exists before after : string, text = before ++ sub ++ after.

(** The title of the issue contains one of the task titles. *)
Definition matches (task_titles : list string) (i : issue) : Prop :=
  exists t : string, In t task_titles /\ occurs_in t (title i).

(** The integer a metrics mapping holds under a key. *)
Definition tasks (key : string) (metrics : pydict) : option Z :=
  match dict_get metrics key with
  | Some (VInt n) => Some n
  | _ => None
  end.

(** The metrics snapshot with every counter at zero. *)
Definition zero_snapshot : pydict :=
  [ ("total_tasks", VInt 0);
    ("completed_tasks", VInt 0);
    ("in_progress_tasks", VInt 0);
    ("blocked_tasks", VInt 0) ].

(** The four keys that [get_project_metrics] produces. *)
Definition counter_keys : list string :=
  ["total_tasks"; "completed_tasks"; "in_progress_tasks"; "blocked_tasks"].

(** What the resolver owes for one entry of [phase_mapping]: the record
    carries the phase number, the number of issues whose title matches the
    entry, how many of those are closed, and the status the rule gives. *)
Definition phase_rule (issues : list issue) (entry : Z * list string)
    (record : pydict) : Prop :=
  let matched := phase_issues (snd entry) issues in
  let total := List.length matched in
  let completed := count (in_state "closed") matched in
  let working :=
    0 < completed
    \/ exists i, In i matched /\ state i = "open"
                 /\ In "in-progress" (map name (labels i)) in
  (forall i, In i matched <-> In i issues /\ matches (snd entry) i)
  /\ dict_get record "phase" = Some (VInt (fst entry))
  /\ dict_get record "tasks_total" = Some (VInt (Z.of_nat total))
  /\ dict_get record "tasks_completed" = Some (VInt (Z.of_nat completed))
  /\ exists status : string,
       dict_get record "status" = Some (VStr status)
       /\ (status = "completed" <-> completed = total /\ 0 < total)
       /\ (status = "in_progress" <-> ~ (completed = total /\ 0 < total) /\ working)
       /\ (status = "not_started" <-> ~ (completed = total /\ 0 < total) /\ ~ working)
       /\ (total = 0 -> status = "not_started").

(** The object found by following a path of keys from the root. *)
Fixpoint lookup (path : list string) (o : value) : option value :=
  match path with
  | [] => Some o
  | k :: rest =>
      match o with
      | VDict d =>
          match dict_get d k with
          | Some inner => lookup rest inner
          | None => None
          end
      | _ => None
      end
  end.

(** The record says "in_progress". *)
Definition says_in_progress (record : pydict) : bool :=
  match dict_get record "status" with
  | Some status => eq_str status "in_progress"
  | None => false
  end.

(** The shape of the records [get_phase_status] builds. *)
Definition phase_shaped (record : pydict) : Prop :=
  exists (number : Z) (phase_name status : string) (total completed : Z),
    record = [ ("phase", VInt number); ("name", VStr phase_name);
               ("status", VStr status); ("tasks_total", VInt total);
               ("tasks_completed", VInt completed) ].

(** The health text for a number of blocked tasks. *)
Definition health_of (blocked : Z) : string :=
  if (2 <? blocked)%Z then "red"
  else if (0 <? blocked)%Z then "yellow"
  else "green".

(** The document with nothing changed but [current_status.last_updated]
    and [metrics.velocity.current]. *)
Definition restamp (stamp : string) (current : Q) (doc : value) : outcome value :=
  doc <- within doc "current_status"
           (fun cs => setitem cs "last_updated" (VStr stamp)) ;;
  within doc "metrics"
    (fun m => within m "velocity" (fun v => setitem v "current" (VFloat current))).

(** Every closed issue without a pull-request marker has a valid closing
    instant, as the tracker delivers it. *)
Definition stamped (issues : list issue) : Prop :=
  forall i, In i issues ->
            in_state "closed" i && without_marker i = true ->
            exists t, closed_at i = Instant t.

(** The document has the keys the updater relies on. *)
Definition shaped (doc : value) : Prop :=
  exists cs vel : pydict,
    lookup ["current_status"] doc = Some (VDict cs)
    /\ lookup ["metrics"; "velocity"] doc = Some (VDict vel).

(** What a record holds under a key ([None] when the key is missing). *)
Definition field (record : pydict) (k : string) : value :=
  match dict_get record k with
  | Some v => v
  | None => VNone
  end.

(** [current_status] once the scan for the current phase is over. *)
Definition current_phase_fields (phases : list pydict) (cs : pydict) : pydict :=
  match find says_in_progress phases with
  | Some record =>
      dict_set (dict_set cs "phase" (field record "phase"))
               "phase_name" (field record "name")
  | None => cs
  end.

(** [current_status] at the end of the merge. *)
Definition merged_status (stamp : string) (phases : list pydict) (blocked : Z)
    (cs : pydict) : pydict :=
  dict_set (current_phase_fields phases (dict_set cs "last_updated" (VStr stamp)))
           "health" (VStr (health_of blocked)).

(** [metrics] at the end of the merge. *)
Definition merged_metrics (counters : pydict) (velocity : Q) (m vel : pydict) : pydict :=
  dict_set (dict_update m counters) "velocity"
           (VDict (dict_set vel "current" (VFloat (round2 velocity)))).

(** The number of open issues labelled "blocked". *)
Definition blocked_count (issues : list issue) : Z :=
  Z.of_nat (count (fun i => in_state "open" i && carries "blocked" i) issues).

(** *** A sample run: the scenario of the specification *)

Definition sample_now : Z := 1700000000000000.

Definition sample_issues : list issue :=
  [ {| title := "Core Data Models"; state := "closed"; labels := [];
       pull_request := None;
       closed_at := Instant (sample_now - 86400000000) |};
    {| title := "Mock SNS Endpoint"; state := "open";
       labels := [ {| name := "blocked" |} ];
       pull_request := None; closed_at := Null |} ].

Definition sample_document : value :=
  VDict
    [ ("project", VStr "TopicTracker");
      ("current_status",
       VDict [ ("last_updated", VStr "2023-11-01T00:00:00+00:00");
               ("phase", VInt 0);
               ("phase_name", VStr "Planning");
               ("health", VStr "green") ]);
      ("metrics",
       VDict [ ("total_tasks", VInt 0);
               ("estimated_hours", VInt 120);
               ("velocity", VDict [ ("current", VFloat 0); ("target", VFloat 1) ]) ]) ].

Definition sample_environment : environment :=
  {| fetch := FetchReturns (IssueArray sample_issues);
     now := sample_now;
     stamp := "2023-11-14T22:13:20+00:00";
     write := WriteSucceeds |}.

(** *** Two runs in succession, a microsecond apart, around the moment
    the closed sample issue turns seven days old *)

Definition closing_instant : Z := sample_now - 86400000000.

Definition first_run : environment :=
  {| fetch := FetchReturns (IssueArray sample_issues);
     now := closing_instant + seven_days - 1;
     stamp := "2023-11-20T22:13:19.999999+00:00";
     write := WriteSucceeds |}.

Definition second_run : environment :=
  {| fetch := FetchReturns (IssueArray sample_issues);
     now := closing_instant + seven_days;
     stamp := "2023-11-20T22:13:20+00:00";
     write := WriteSucceeds |}.

(** What the file holds at a path, when it holds a document. *)
Definition on_disk (path : list string) (w : world) : option value :=
  match disk w with
  | Document doc => lookup path doc
  | _ => None
  end.

(** *** A run whose dump fails after the file was opened for writing *)

Definition interrupted_run : environment :=
  {| fetch := FetchReturns (IssueArray sample_issues);
     now := sample_now;
     stamp := "2023-11-14T22:13:20+00:00";
     write := DumpRaises OSError NothingFlushed |}.



(** The file can be read and parsed. *)
Definition loads (file : file_state) : Prop :=
  file = Emptied \/ exists doc, file = Document doc.

(** *** Vocabulary of the further properties *)

(** A closed issue without a pull-request marker whose closing instant is
    missing or unreadable. *)
Definition offending (i : issue) : bool :=
  in_state "closed" i && without_marker i
  && match closed_at i with
     | Instant _ => false
     | _ => true
     end.

(** The exception that reading the closing instant of the issue raises. *)
Definition timestamp_error (i : issue) : exn :=
  match closed_at i with
  | Null => AttributeError
  | _ => ValueError
  end.

(** The keys of a dictionary, in their order. *)
Definition keys (d : pydict) : list string := map fst d.

(** The dictionary has the key. *)
Definition has_key (d : pydict) (k : string) : bool :=
  match dict_get d k with
  | Some _ => true
  | None => false
  end.

(** The keys of [wanted] that the dictionary lacks, in the order of [wanted]. *)
Definition lacking (d : pydict) (wanted : list string) : list string :=
  filter (fun k => negb (has_key d k)) wanted.

(** The phase number a record carries. *)
Definition number (record : pydict) : Z :=
  match dict_get record "phase" with
  | Some (VInt n) => n
  | _ => 0%Z
  end.

(** The keys of a phase record, in the order the resolver writes them. *)
Definition phase_keys : list string :=
  ["phase"; "name"; "status"; "tasks_total"; "tasks_completed"].

(** The places of the document that every completed run writes. *)
Definition rewritten_paths : list (list string) :=
  [ ["phases"];
    ["metrics"; "total_tasks"];
    ["metrics"; "completed_tasks"];
    ["metrics"; "in_progress_tasks"];
    ["metrics"; "blocked_tasks"];
    ["metrics"; "velocity"; "current"];
    ["current_status"; "last_updated"];
    ["current_status"; "health"] ].

(* ------------------------------------------------------------------ *)
(** ** Counting and label lemmas *)

Lemma length_filter_count {A : Type} (p : A -> bool) (l : list A) :
  List.length (filter p l) = count p l.
Proof.
  induction l as [|x rest IH]; simpl; [reflexivity|].
  destruct (p x); simpl; rewrite IH; reflexivity.
Qed.

Lemma count_ext {A : Type} (p q : A -> bool) (l : list A) :
  (forall x, p x = q x) -> count p l = count q l.
Proof.
  intros H. induction l as [|x rest IH]; simpl; [reflexivity|].
  rewrite H, IH. reflexivity.
Qed.

Lemma count_le {A : Type} (p q : A -> bool) (l : list A) :
  (forall x, p x = true -> q x = true) -> count p l <= count q l.
Proof.
  intros H. induction l as [|x rest IH]; simpl; [lia|].
  destruct (p x) eqn:Hp; [rewrite (H x Hp)|destruct (q x)]; lia.
Qed.

Lemma count_app {A : Type} (p : A -> bool) (l1 l2 : list A) :
  count p (l1 ++ l2) = count p l1 + count p l2.
Proof.
  induction l1 as [|x rest IH]; simpl; [reflexivity|]. rewrite IH. lia.
Qed.

Lemma in_state_eqb (s : string) (i : issue) :
  (state i =? s) = in_state s i.
Proof.
  unfold in_state. destruct (string_dec (state i) s) as [E|E].
  - now apply String.eqb_eq.
  - now apply String.eqb_neq.
Qed.

Lemma truthy_without_marker (i : issue) :
  negb (truthy (pull_request i)) = without_marker i.
Proof. unfold without_marker. destruct (pull_request i); reflexivity. Qed.

Lemma existsb_name_carries (text : string) (i : issue) :
  existsb (fun label => name label =? text) (labels i) = carries text i.
Proof.
  unfold carries.
  destruct (in_dec string_dec text (map name (labels i))) as [Hin|Hout].
  - apply existsb_exists. apply in_map_iff in Hin as [l [Hl Hin]].
    exists l. split; [assumption|]. now apply String.eqb_eq.
  - destruct (existsb _ _) eqn:E; [|reflexivity].
    apply existsb_exists in E as [l [Hin Hl]]. apply String.eqb_eq in Hl.
    exfalso. apply Hout. apply in_map_iff. now exists l.
Qed.

Lemma carries_true (text : string) (i : issue) :
  carries text i = true <-> In text (map name (labels i)).
Proof.
  unfold carries. destruct (in_dec _ _ _); split; intros; try assumption;
    try reflexivity; try discriminate; contradiction.
Qed.

(** The four counters, each as a count over the whole sequence. *)
Lemma get_project_metrics_counts (issues : list issue) :
  get_project_metrics issues =
  [ ("total_tasks", VInt (Z.of_nat (count without_marker issues)));
    ("completed_tasks",
     VInt (Z.of_nat (count (fun i => in_state "closed" i && without_marker i) issues)));
    ("in_progress_tasks",
     VInt (Z.of_nat (count (fun i => in_state "open" i && carries "in-progress" i) issues)));
    ("blocked_tasks",
     VInt (Z.of_nat (count (fun i => in_state "open" i && carries "blocked" i) issues))) ].
Proof.
  unfold get_project_metrics. rewrite !length_filter_count.
  rewrite (count_ext _ without_marker issues truthy_without_marker).
  rewrite (count_ext (fun i => (state i =? "closed") && negb (truthy (pull_request i)))
                     (fun i => in_state "closed" i && without_marker i) issues)
    by (intros i; now rewrite in_state_eqb, truthy_without_marker).
  rewrite (count_ext (fun i => (state i =? "open")
                               && existsb (fun label => name label =? "in-progress") (labels i))
                     (fun i => in_state "open" i && carries "in-progress" i) issues)
    by (intros i; now rewrite in_state_eqb, existsb_name_carries).
  rewrite (count_ext (fun i => (state i =? "open")
                               && existsb (fun label => name label =? "blocked") (labels i))
                     (fun i => in_state "open" i && carries "blocked" i) issues)
    by (intros i; now rewrite in_state_eqb, existsb_name_carries).
  reflexivity.
Qed.

Lemma tasks_metrics (issues : list issue) :
  let metrics := get_project_metrics issues in
  tasks "total_tasks" metrics = Some (Z.of_nat (count without_marker issues))
  /\ tasks "completed_tasks" metrics =
       Some (Z.of_nat (count (fun i => in_state "closed" i && without_marker i) issues))
  /\ tasks "in_progress_tasks" metrics =
       Some (Z.of_nat (count (fun i => in_state "open" i && carries "in-progress" i) issues))
  /\ tasks "blocked_tasks" metrics =
       Some (Z.of_nat (count (fun i => in_state "open" i && carries "blocked" i) issues)).
Proof.
  cbv zeta. rewrite get_project_metrics_counts. repeat split.
Qed.

(** C5. For every issue sequence, total_tasks is the number of issues
    without a pull-request marker, completed_tasks is the number of closed
    issues without a pull-request marker, hence completed_tasks is at most
    total_tasks; the empty sequence gives the all-zero snapshot. *)
Theorem metrics_total_and_completed (issues : list issue) :
  let metrics := get_project_metrics issues in
  tasks "total_tasks" metrics = Some (Z.of_nat (count without_marker issues))
  /\ tasks "completed_tasks" metrics =
       Some (Z.of_nat (count (fun i => in_state "closed" i && without_marker i) issues))
  /\ (exists completed total : Z,
         tasks "completed_tasks" metrics = Some completed
         /\ tasks "total_tasks" metrics = Some total
         /\ (0 <= completed <= total)%Z)
  /\ get_project_metrics [] = zero_snapshot.
Proof.
  destruct (tasks_metrics issues) as (Ht & Hc & _). cbv zeta in *.
  repeat split; try assumption.
  exists (Z.of_nat (count (fun i => in_state "closed" i && without_marker i) issues)),
         (Z.of_nat (count without_marker issues)).
  split; [exact Hc|]. split; [exact Ht|]. split; [lia|].
  apply inj_le. apply count_le. intros i H.
  now apply andb_true_iff in H.
Qed.

(** C6. For every issue sequence, in_progress_tasks counts every open issue
    labelled "in-progress" and blocked_tasks every open issue labelled
    "blocked", pull requests included: putting an open pull request with the
    label in front of the sequence raises that counter by one and leaves
    total_tasks and completed_tasks as they were. *)
Theorem metrics_in_progress_and_blocked (issues : list issue) :
  let metrics := get_project_metrics issues in
  let open_pull_request := fun t url c before tag after =>
    {| title := t; state := "open";
       labels := (before ++ {| name := tag |} :: after)%list;
       pull_request := Some url; closed_at := c |} in
  tasks "in_progress_tasks" metrics =
    Some (Z.of_nat (count (fun i => in_state "open" i && carries "in-progress" i) issues))
  /\ tasks "blocked_tasks" metrics =
       Some (Z.of_nat (count (fun i => in_state "open" i && carries "blocked" i) issues))
  /\ forall (t url : string) (c : closed_at_field) (before after : list label),
       let with_in_progress :=
         get_project_metrics
           (open_pull_request t url c before "in-progress" after :: issues) in
       let with_blocked :=
         get_project_metrics
           (open_pull_request t url c before "blocked" after :: issues) in
       tasks "in_progress_tasks" with_in_progress
         = option_map Z.succ (tasks "in_progress_tasks" metrics)
       /\ tasks "total_tasks" with_in_progress = tasks "total_tasks" metrics
       /\ tasks "completed_tasks" with_in_progress = tasks "completed_tasks" metrics
       /\ tasks "blocked_tasks" with_blocked
          = option_map Z.succ (tasks "blocked_tasks" metrics)
       /\ tasks "total_tasks" with_blocked = tasks "total_tasks" metrics
       /\ tasks "completed_tasks" with_blocked = tasks "completed_tasks" metrics.
Proof.
  destruct (tasks_metrics issues) as (Ht & Hc & Hi & Hb). cbv zeta in *.
  split; [assumption|]. split; [assumption|].
  intros t url c before after.
  assert (Hcarries : forall tag,
             carries tag {| title := t; state := "open";
                            labels := (before ++ {| name := tag |} :: after)%list;
                            pull_request := Some url; closed_at := c |} = true).
  { intros tag. apply carries_true. simpl. rewrite map_app.
    apply in_or_app. right. now left. }
  match goal with
  | |- context [get_project_metrics (?x :: issues)] =>
      destruct (tasks_metrics (x :: issues)) as (Ht1 & Hc1 & Hi1 & _)
  end.
  match goal with
  | |- context [tasks "blocked_tasks" (get_project_metrics (?x :: issues))] =>
      destruct (tasks_metrics (x :: issues)) as (Ht2 & Hc2 & _ & Hb2)
  end.
  cbv zeta in *.
  rewrite Ht1, Hc1, Hi1, Ht2, Hc2, Hb2, Ht, Hc, Hi, Hb.
  cbn [count]. rewrite !Hcarries.
  cbn [in_state without_marker state pull_request option_map].
  repeat split; f_equal; simpl; lia.
Qed.

Lemma metrics_in_progress_and_blocked_witness :
  tasks "in_progress_tasks"
        (get_project_metrics
           [ {| title := "Query Endpoints"; state := "open";
                labels := [ {| name := "in-progress" |} ];
                pull_request := Some "https://api.github.com/repos/owner/TopicTracker/pulls/7";
                closed_at := Null |} ])
  = Some 1%Z.
Proof.
  exact (proj1 (metrics_in_progress_and_blocked _)).
Defined.

(** C10. An open issue whose labels contain both "in-progress" and
    "blocked" adds one to in_progress_tasks and one to blocked_tasks; on the
    sequence made of that issue alone the four counters add up to more than
    the number of issues. *)
Theorem counters_overlap (i : issue) (issues : list issue)
    (Hopen : state i = "open")
    (Hprogress : In "in-progress" (map name (labels i)))
    (Hblocked : In "blocked" (map name (labels i))) :
  tasks "in_progress_tasks" (get_project_metrics (i :: issues)) =
    option_map Z.succ (tasks "in_progress_tasks" (get_project_metrics issues))
  /\ tasks "blocked_tasks" (get_project_metrics (i :: issues)) =
       option_map Z.succ (tasks "blocked_tasks" (get_project_metrics issues))
  /\ exists total completed in_progress blocked : Z,
       tasks "total_tasks" (get_project_metrics [i]) = Some total
       /\ tasks "completed_tasks" (get_project_metrics [i]) = Some completed
       /\ tasks "in_progress_tasks" (get_project_metrics [i]) = Some in_progress
       /\ tasks "blocked_tasks" (get_project_metrics [i]) = Some blocked
       /\ in_progress = 1%Z /\ blocked = 1%Z
       /\ (total + completed + in_progress + blocked > Z.of_nat (List.length [i]))%Z.
Proof.
  destruct (tasks_metrics issues) as (_ & _ & Hi & Hb).
  destruct (tasks_metrics (i :: issues)) as (_ & _ & Hi' & Hb').
  destruct (tasks_metrics [i]) as (Ht1 & Hc1 & Hi1 & Hb1). cbv zeta in *.
  apply carries_true in Hprogress, Hblocked.
  assert (Ho : in_state "open" i = true).
  { unfold in_state. now destruct (string_dec (state i) "open"). }
  rewrite Hi', Hb', Hi, Hb, Ht1, Hc1, Hi1, Hb1. simpl.
  rewrite Ho, Hprogress, Hblocked. simpl.
  split; [f_equal; lia|]. split; [f_equal; lia|].
  do 4 eexists. repeat split.
  destruct (without_marker i), (in_state "closed" i); simpl; lia.
Qed.

Lemma counters_overlap_witness :
  let i := {| title := "Mock SNS Endpoint"; state := "open";
              labels := [ {| name := "in-progress" |}; {| name := "blocked" |} ];
              pull_request := None; closed_at := Null |} in
  tasks "in_progress_tasks" (get_project_metrics [i]) = Some 1%Z
  /\ tasks "blocked_tasks" (get_project_metrics [i]) = Some 1%Z.
Proof.
  intros i.
  destruct (counters_overlap i [] eq_refl
              (or_introl eq_refl) (or_intror (or_introl eq_refl))) as (H1 & H2 & _).
  split; [exact H1 | exact H2].
Defined.

(* ------------------------------------------------------------------ *)
(** ** Velocity *)

Lemma filterM_stamped (bound : Z) (l : list issue) :
  (forall i, In i l -> exists t, closed_at i = Instant t) ->
  filterM (fun i => t <- closed_timestamp i ;; Ok (bound <? t)%Z) l
  = Ok (filter (closed_after bound) l).
Proof.
  induction l as [|i rest IH]; intros H; simpl; [reflexivity|].
  destruct (H i (or_introl eq_refl)) as [t Ht].
  unfold closed_timestamp at 1, closed_after at 1. rewrite Ht. simpl.
  rewrite IH by (intros j Hj; apply H; now right). simpl.
  reflexivity.
Qed.

Lemma count_filter {A : Type} (p q : A -> bool) (l : list A) :
  count p (filter q l) = count (fun x => q x && p x) l.
Proof.
  induction l as [|x rest IH]; simpl; [reflexivity|].
  destruct (q x); simpl; rewrite IH; reflexivity.
Qed.

Lemma closed_issues_filter (issues : list issue) :
  filter (fun i => (state i =? "closed") && negb (truthy (pull_request i))) issues
  = filter (fun i => in_state "closed" i && without_marker i) issues.
Proof.
  apply filter_ext. intros i. now rewrite in_state_eqb, truthy_without_marker.
Qed.

(** The value of [calculate_velocity] once every closed issue without a
    pull-request marker has a valid closing instant. *)
Lemma calculate_velocity_stamped (now : Z) (issues : list issue) :
  (forall i, In i issues ->
             in_state "closed" i && without_marker i = true ->
             exists t, closed_at i = Instant t) ->
  calculate_velocity now issues =
    Ok (if (count (fun i => in_state "closed" i && without_marker i) issues =? 0)%nat
        then 0%Q
        else (Z.of_nat (count (fun i => in_state "closed" i && without_marker i
                                        && closed_after (now - seven_days) i)
                              issues) # 7)%Q).
Proof.
  intros H. unfold calculate_velocity. rewrite closed_issues_filter.
  rewrite <- (length_filter_count (fun i => in_state "closed" i && without_marker i)).
  rewrite <- count_filter.
  assert (Hall : forall i,
             In i (filter (fun i => in_state "closed" i && without_marker i) issues) ->
             exists t, closed_at i = Instant t).
  { intros i Hi. apply filter_In in Hi as [Hin Hp]. now apply H. }
  destruct (filter _ issues) as [|c rest]; [reflexivity|].
  rewrite filterM_stamped by assumption.
  cbn [bind]. rewrite length_filter_count. reflexivity.
Qed.

(** C2. The velocity is 0.0 when no closed issue without a pull-request
    marker exists; otherwise it is the number of such issues closed strictly
    later than now minus seven days, over 7, for the one reading [now] of the
    clock.  An issue closed exactly seven days before [now] is left out, one
    closed a microsecond later is counted. *)
Theorem velocity_window (now : Z) (issues : list issue)
    (Hstamped : forall i, In i issues ->
                  in_state "closed" i && without_marker i = true ->
                  exists t, closed_at i = Instant t) :
  let closed := fun i => in_state "closed" i && without_marker i in
  let recent := fun i => closed i && closed_after (now - seven_days) i in
  (count closed issues = 0 -> calculate_velocity now issues = Ok 0%Q)
  /\ (count closed issues <> 0 ->
      calculate_velocity now issues = Ok (Z.of_nat (count recent issues) # 7)%Q)
  /\ (forall i, closed_at i = Instant (now - seven_days) -> recent i = false)
  /\ forall (t : string) (ls : list label) (late : Z),
       let closed_at_offset := fun d =>
         {| title := t; state := "closed"; labels := ls; pull_request := None;
            closed_at := Instant (now - seven_days + d) |} in
       calculate_velocity now (closed_at_offset 0%Z :: issues)
         = Ok (Z.of_nat (count recent issues) # 7)%Q
       /\ ((0 < late)%Z ->
           calculate_velocity now (closed_at_offset late :: issues)
             = Ok (Z.of_nat (1 + count recent issues) # 7)%Q).
Proof.
  cbv zeta. split; [|split; [|split]].
  - intros H0. rewrite calculate_velocity_stamped by assumption.
    rewrite H0. reflexivity.
  - intros Hn. rewrite calculate_velocity_stamped by assumption.
    apply Nat.eqb_neq in Hn. rewrite Hn. reflexivity.
  - intros i Hi. unfold closed_after. rewrite Hi, Z.ltb_irrefl.
    apply andb_false_r.
  - intros t ls late.
    assert (Hcons : forall d i,
               In i ({| title := t; state := "closed"; labels := ls;
                        pull_request := None;
                        closed_at := Instant (now - seven_days + d) |} :: issues) ->
               in_state "closed" i && without_marker i = true ->
               exists t', closed_at i = Instant t').
    { intros d i [<-|Hin] Hc; [now eexists | now apply Hstamped]. }
    split; [|intros Hlate];
      (rewrite calculate_velocity_stamped by apply Hcons);
      cbn [count in_state without_marker closed_after state pull_request closed_at];
      cbn [string_dec string_rec string_rect]; simpl.
    + rewrite Z.add_0_r, Z.ltb_irrefl. reflexivity.
    + replace (now - seven_days <? now - seven_days + late)%Z with true
        by (symmetry; apply Z.ltb_lt; lia).
      reflexivity.
Qed.

Lemma velocity_window_witness :
  let closed_yesterday :=
    {| title := "Core Data Models"; state := "closed"; labels := [];
       pull_request := None;
       closed_at := Instant (1700000000000000 - 86400000000) |} in
  let still_open :=
    {| title := "Mock SNS Endpoint"; state := "open";
       labels := [ {| name := "blocked" |} ];
       pull_request := None; closed_at := Null |} in
  calculate_velocity 1700000000000000 [closed_yesterday; still_open] = Ok (1 # 7)%Q.
Proof.
  intros closed_yesterday still_open.
  refine (proj1 (proj2 (velocity_window 1700000000000000
                          [closed_yesterday; still_open] _)) _).
  - intros i [<-|[<-|[]]] H; [eexists; reflexivity | discriminate H].
  - vm_compute. discriminate.
Defined.

(* ------------------------------------------------------------------ *)
(** ** Phase status *)

Lemma prefix_append (sub text : string) :
  prefix sub text = true <-> exists after : string, text = sub ++ after.
Proof.
  revert text. induction sub as [|a sub IH]; intros text.
  - destruct text; simpl; split; eauto.
  - destruct text as [|b text]; simpl.
    + split; [discriminate | intros [x H]; discriminate H].
    + destruct (ascii_dec a b) as [->|N].
      * rewrite IH. split; intros [x H]; exists x; [now rewrite H | now inversion H].
      * split; [discriminate | intros [x H]; inversion H; congruence].
Qed.

Lemma contains_occurs (text sub : string) :
  contains text sub = true <-> occurs_in sub text.
Proof.
  unfold occurs_in. induction text as [|c rest IH]; cbn [contains].
  - rewrite prefix_append. split.
    + intros [after H]. now exists EmptyString, after.
    + intros [before [after H]]. destruct before; [|discriminate H].
      now exists after.
  - rewrite orb_true_iff, IH. split.
    + intros [H|[before [after H]]].
      * apply prefix_append in H as [after H]. now exists EmptyString, after.
      * exists (String c before), after. simpl. now rewrite H.
    + intros [before [after H]]. destruct before as [|c' before].
      * left. apply prefix_append. now exists after.
      * right. inversion H. now exists before, after.
Qed.

Lemma phase_issues_matches (task_titles : list string) (issues : list issue) (i : issue) :
  In i (phase_issues task_titles issues) <-> In i issues /\ matches task_titles i.
Proof.
  unfold phase_issues, matches. rewrite filter_In, existsb_exists.
  split; intros [Hin [t [Ht Hc]]]; (split; [assumption|]); exists t;
    (split; [assumption|]); now apply contains_occurs.
Qed.

Lemma count_le_length {A : Type} (p : A -> bool) (l : list A) :
  count p l <= List.length l.
Proof. induction l as [|x rest IH]; simpl; [lia|]. destruct (p x); lia. Qed.

Lemma existsb_open_in_progress (l : list issue) :
  existsb (fun i => (state i =? "open")
                    && existsb (fun label => name label =? "in-progress") (labels i)) l
  = true
  <-> exists i, In i l /\ state i = "open" /\ In "in-progress" (map name (labels i)).
Proof.
  rewrite existsb_exists. split; intros [i [Hin H]]; exists i.
  - apply andb_true_iff in H as [Ho Hl]. apply String.eqb_eq in Ho.
    rewrite existsb_name_carries in Hl. apply carries_true in Hl. auto.
  - destruct H as [Ho Hl]. split; [assumption|]. apply andb_true_iff. split.
    + now apply String.eqb_eq.
    + rewrite existsb_name_carries. now apply carries_true.
Qed.

(** The rule one pass of the loop applies, for any list of task titles. *)
Lemma phase_status_rule (task_titles : list string) (issues : list issue) :
  let matched := phase_issues task_titles issues in
  let total := List.length matched in
  let completed := count (in_state "closed") matched in
  let working :=
    0 < completed
    \/ exists i, In i matched /\ state i = "open"
                 /\ In "in-progress" (map name (labels i)) in
  let status := phase_status task_titles issues in
  (status = "completed" <-> completed = total /\ 0 < total)
  /\ (status = "in_progress" <-> ~ (completed = total /\ 0 < total) /\ working)
  /\ (status = "not_started" <-> ~ (completed = total /\ 0 < total) /\ ~ working)
  /\ (total = 0 -> status = "not_started").
Proof.
  cbv zeta. unfold phase_status.
  rewrite length_filter_count.
  rewrite (count_ext (fun i => state i =? "closed") (in_state "closed"))
    by (intros; apply in_state_eqb).
  set (matched := phase_issues task_titles issues).
  pose proof (count_le_length (in_state "closed") matched) as Hle.
  pose proof (existsb_open_in_progress matched) as Hany.
  set (completed := count (in_state "closed") matched) in *.
  set (total := List.length matched) in *.
  assert (Hempty : total = 0 ->
                   ~ exists i, In i matched /\ state i = "open"
                               /\ In "in-progress" (map name (labels i))).
  { intros H0 [i [Hin _]]. apply length_zero_iff_nil in H0.
    rewrite H0 in Hin. exact Hin. }
  destruct (Nat.eqb_spec completed total) as [E|E];
    destruct (Nat.ltb_spec 0 total) as [P|P];
    destruct (Nat.ltb_spec 0 completed) as [C|C]; simpl;
    try destruct (existsb _ matched) eqn:X;
    repeat split; intros; try discriminate; try lia; try tauto;
    try (destruct Hany as [Hany1 Hany2];
         intuition (try discriminate; try lia; auto)).
Qed.

Lemma mapM_Forall2 {A B : Type} (f : A -> outcome B) (R : A -> B -> Prop) (l : list A) :
  (forall x, In x l -> exists y, f x = Ok y /\ R x y) ->
  exists ys, mapM f l = Ok ys /\ Forall2 R l ys.
Proof.
  induction l as [|x rest IH]; intros H.
  - exists []. split; [reflexivity | constructor].
  - destruct (H x (or_introl eq_refl)) as [y [Hy HR]].
    destruct IH as [ys [Hys HF]]; [intros z Hz; apply H; now right|].
    exists (y :: ys). simpl. rewrite Hy, Hys. split; [reflexivity|].
    now constructor.
Qed.

Lemma phase_record_rule (issues : list issue) (entry : Z * list string) :
  In entry phase_mapping ->
  exists record, phase_record issues entry = Ok record /\ phase_rule issues entry record.
Proof.
  intros Hin.
  assert (Hname : exists phase_name, int_getitem phase_names (fst entry) = Ok phase_name).
  { unfold phase_mapping in Hin. simpl in Hin.
    repeat (destruct Hin as [<-|Hin]; [eexists; reflexivity|]). contradiction. }
  destruct Hname as [phase_name Hname].
  unfold phase_record. rewrite Hname. cbn [bind].
  eexists. split; [reflexivity|].
  unfold phase_rule. cbv zeta.
  split; [intros i; apply phase_issues_matches|].
  split; [reflexivity|]. split; [reflexivity|].
  split.
  { cbn [dict_get String.eqb Ascii.eqb Bool.eqb]. rewrite length_filter_count.
    rewrite (count_ext (fun i => state i =? "closed") (in_state "closed"))
      by (intros; apply in_state_eqb).
    reflexivity. }
  exists (phase_status (snd entry) issues). split; [reflexivity|].
  apply phase_status_rule.
Qed.

(** C1. For every issue sequence the resolver returns one record per phase,
    in the order of the static mapping, and each record obeys the rule: the
    status is "completed" exactly when the completed count equals the total
    and the total is positive; otherwise "in_progress" when the completed
    count is positive or a matching issue is open and labelled "in-progress";
    otherwise "not_started"; a phase with total 0 is "not_started". *)
Theorem get_phase_status_rule (issues : list issue) :
  exists phases : list pydict,
    get_phase_status issues = Ok phases
    /\ Forall2 (phase_rule issues) phase_mapping phases.
Proof.
  unfold get_phase_status. apply mapM_Forall2.
  intros entry Hin. now apply phase_record_rule.
Qed.

Lemma get_phase_status_rule_witness :
  exists phases : list pydict,
    get_phase_status sample_issues = Ok phases
    /\ Forall2 (phase_rule sample_issues) phase_mapping phases.
Proof.
  exact (get_phase_status_rule sample_issues).
Defined.

(** The resolver never raises. *)
Lemma get_phase_status_total (issues : list issue) :
  exists phases : list pydict, get_phase_status issues = Ok phases.
Proof.
  destruct (mapM_Forall2 (phase_record issues) (fun _ _ => True) phase_mapping)
    as [phases [H _]]; [|now exists phases].
  intros entry Hin. destruct (phase_record_rule issues entry Hin) as [record [H _]].
  now exists record.
Qed.

(* ------------------------------------------------------------------ *)
(** ** Dictionaries *)

Lemma dict_get_set (d : pydict) (k : string) (v : value) (k' : string) :
  dict_get (dict_set d k v) k' = if k =? k' then Some v else dict_get d k'.
Proof.
  induction d as [|[k0 v0] rest IH]; simpl; [reflexivity|].
  destruct (k0 =? k) eqn:E; simpl.
  - apply String.eqb_eq in E. subst k0. destruct (k =? k'); reflexivity.
  - destruct (k0 =? k') eqn:E'; [|exact IH].
    apply String.eqb_eq in E'. subst k0. now rewrite String.eqb_sym, E.
Qed.

Lemma dict_get_set_eq (d : pydict) (k : string) (v : value) :
  dict_get (dict_set d k v) k = Some v.
Proof. now rewrite dict_get_set, String.eqb_refl. Qed.

Lemma dict_get_set_neq (d : pydict) (k : string) (v : value) (k' : string) :
  k <> k' -> dict_get (dict_set d k v) k' = dict_get d k'.
Proof. intros N. rewrite dict_get_set. apply String.eqb_neq in N. now rewrite N. Qed.

(** Storing what is already there changes nothing, the order included. *)
Lemma dict_set_same (d : pydict) (k : string) (v : value) :
  dict_get d k = Some v -> dict_set d k v = d.
Proof.
  induction d as [|[k0 v0] rest IH]; simpl; [discriminate|].
  destruct (k0 =? k) eqn:E; intros H.
  - now inversion H.
  - now rewrite IH.
Qed.

Lemma dict_set_set (d : pydict) (k : string) (v w : value) :
  dict_set (dict_set d k v) k w = dict_set d k w.
Proof.
  induction d as [|[k0 v0] rest IH]; simpl.
  - now rewrite String.eqb_refl.
  - destruct (k0 =? k) eqn:E; simpl; rewrite E; [reflexivity | now rewrite IH].
Qed.

Lemma dict_update_cons (d : pydict) (k : string) (v : value) (other : pydict) :
  dict_update d ((k, v) :: other) = dict_update (dict_set d k v) other.
Proof. reflexivity. Qed.

Lemma dict_update_frame (other d : pydict) (k : string) :
  dict_get other k = None -> dict_get (dict_update d other) k = dict_get d k.
Proof.
  revert d. induction other as [|[k0 v0] rest IH]; intros d H; [reflexivity|].
  simpl in H. destruct (k0 =? k) eqn:E; [discriminate|].
  rewrite dict_update_cons, IH by assumption.
  apply dict_get_set_neq. now apply String.eqb_neq.
Qed.

Lemma dict_update_noop (other d : pydict) :
  (forall k v, In (k, v) other -> dict_get d k = Some v) ->
  dict_update d other = d.
Proof.
  induction other as [|[k0 v0] rest IH]; intros H; [reflexivity|].
  rewrite dict_update_cons, dict_set_same by (apply H; now left).
  apply IH. intros k v Hin. apply H. now right.
Qed.

Lemma metrics_update (d : pydict) (issues : list issue) (k : string) :
  dict_get (dict_update d (get_project_metrics issues)) k =
  match dict_get (get_project_metrics issues) k with
  | Some v => Some v
  | None => dict_get d k
  end.
Proof.
  unfold get_project_metrics, dict_update. cbn [fold_left fst snd].
  rewrite !dict_get_set. cbn [dict_get].
  destruct ("blocked_tasks" =? k) eqn:E4.
  - apply String.eqb_eq in E4. subst k. reflexivity.
  - destruct ("in_progress_tasks" =? k) eqn:E3.
    + apply String.eqb_eq in E3. subst k. reflexivity.
    + destruct ("completed_tasks" =? k) eqn:E2.
      * apply String.eqb_eq in E2. subst k. reflexivity.
      * destruct ("total_tasks" =? k) eqn:E1; reflexivity.
Qed.

(* ------------------------------------------------------------------ *)
(** ** Stepping through the outcome monad *)

Lemma bind_Ok {A B : Type} (m : outcome A) (k : A -> outcome B) (b : B) :
  bind m k = Ok b <-> exists a, m = Ok a /\ k a = Ok b.
Proof.
  destruct m as [a|e]; simpl; split.
  - intros H. now exists a.
  - now intros [a' [[= ->] H]].
  - discriminate.
  - now intros [a' [[=] _]].
Qed.

Lemma getitem_Ok (o : value) (k : string) (v : value) :
  getitem o k = Ok v <-> exists d, o = VDict d /\ dict_get d k = Some v.
Proof.
  destruct o; simpl; split; try discriminate;
    try (intros [d' [[=] _]]; fail).
  - destruct (dict_get d k) eqn:E; [|discriminate]. intros [= ->]. now exists d.
  - intros [d' [[= <-] H]]. now rewrite H.
Qed.

Lemma setitem_Ok (o : value) (k : string) (v o' : value) :
  setitem o k v = Ok o' <-> exists d, o = VDict d /\ o' = VDict (dict_set d k v).
Proof.
  destruct o; simpl; split; try discriminate;
    try (intros [d' [[=] _]]; fail).
  - intros [= <-]. now exists d.
  - now intros [d' [[= <-] ->]].
Qed.

Lemma update_Ok (o : value) (other : pydict) (o' : value) :
  update o other = Ok o' <-> exists d, o = VDict d /\ o' = VDict (dict_update d other).
Proof.
  destruct o; simpl; split; try discriminate;
    try (intros [d' [[=] _]]; fail).
  - intros [= <-]. now exists d.
  - now intros [d' [[= <-] ->]].
Qed.

Lemma within_Ok (o : value) (k : string) (f : value -> outcome value) (o' : value) :
  within o k f = Ok o'
  <-> exists d inner inner',
        o = VDict d /\ dict_get d k = Some inner /\ f inner = Ok inner'
        /\ o' = VDict (dict_set d k inner').
Proof.
  unfold within. rewrite bind_Ok. split.
  - intros [inner [Hg H]]. apply bind_Ok in H as [inner' [Hf Hs]].
    apply getitem_Ok in Hg as [d [-> Hd]].
    apply setitem_Ok in Hs as [d' [[= <-] ->]].
    now exists d, inner, inner'.
  - intros (d & inner & inner' & -> & Hd & Hf & ->).
    exists inner. split; [apply getitem_Ok; now exists d|].
    apply bind_Ok. exists inner'. split; [assumption|]. reflexivity.
Qed.

(** A step that stores what is already there leaves the object as it is. *)
Lemma within_noop (d : pydict) (k : string) (f : value -> outcome value) (inner : value) :
  dict_get d k = Some inner -> f inner = Ok inner -> within (VDict d) k f = Ok (VDict d).
Proof.
  intros Hd Hf. apply within_Ok. exists d, inner, inner.
  repeat split; try assumption. now rewrite dict_set_same.
Qed.

Lemma within_set (d : pydict) (k : string) (f : value -> outcome value) (inner inner' : value) :
  dict_get d k = Some inner -> f inner = Ok inner' ->
  within (VDict d) k f = Ok (VDict (dict_set d k inner')).
Proof.
  intros Hd Hf. apply within_Ok. now exists d, inner, inner'.
Qed.

(* ------------------------------------------------------------------ *)
(** ** The merge, step by step *)

Ltac dict_simpl :=
  repeat (rewrite dict_get_set; cbn [String.eqb Ascii.eqb Bool.eqb]).

Lemma determine_current_phase_shaped (phases : list pydict) (p cs : pydict) :
  Forall phase_shaped phases ->
  dict_get p "current_status" = Some (VDict cs) ->
  determine_current_phase phases (VDict p)
  = Ok (VDict (dict_set p "current_status" (VDict (current_phase_fields phases cs)))).
Proof.
  intros Hshape Hcs. unfold current_phase_fields.
  induction Hshape as [|record rest Hrecord Hrest IH].
  - simpl. now rewrite dict_set_same.
  - destruct Hrecord as (number & phase_name & status & total & completed & ->).
    cbn [determine_current_phase find]. unfold says_in_progress, field.
    cbn [getitem dict_get String.eqb Ascii.eqb Bool.eqb bind eq_str].
    destruct (status =? "in_progress"); [|exact IH].
    rewrite (within_set p "current_status" _ (VDict cs) (VDict (dict_set cs "phase" (VInt number))))
      by (assumption || reflexivity).
    cbn [bind].
    rewrite (within_set _ "current_status" _ (VDict (dict_set cs "phase" (VInt number)))
               (VDict (dict_set (dict_set cs "phase" (VInt number))
                                "phase_name" (VStr phase_name))))
      by (apply dict_get_set_eq || reflexivity).
    now rewrite dict_set_set.
Qed.

Lemma update_health_shaped (p cs m : pydict) (blocked : Z) :
  dict_get p "current_status" = Some (VDict cs) ->
  dict_get p "metrics" = Some (VDict m) ->
  dict_get m "blocked_tasks" = Some (VInt blocked) ->
  update_health (VDict p)
  = Ok (VDict (dict_set p "current_status"
                 (VDict (dict_set cs "health" (VStr (health_of blocked)))))).
Proof.
  intros Hcs Hm Hb. unfold update_health, health_of.
  cbn [getitem]. rewrite Hm. cbn [bind getitem]. rewrite Hb. cbn [bind gt_int].
  destruct (2 <? blocked)%Z.
  - apply (within_set p "current_status" _ (VDict cs)); [assumption|reflexivity].
  - destruct (0 <? blocked)%Z;
      (apply (within_set p "current_status" _ (VDict cs)); [assumption|reflexivity]).
Qed.

Lemma blocked_tasks_metrics (issues : list issue) :
  dict_get (get_project_metrics issues) "blocked_tasks" = Some (VInt (blocked_count issues)).
Proof. now rewrite get_project_metrics_counts. Qed.

(** The result of the merge on a document that has the keys it needs. *)
Lemma merge_shaped (stamp : string) (issues : list issue) (velocity : Q)
    (phases : list pydict) (p cs m vel : pydict) :
  dict_get p "current_status" = Some (VDict cs) ->
  dict_get p "metrics" = Some (VDict m) ->
  dict_get m "velocity" = Some (VDict vel) ->
  Forall phase_shaped phases ->
  exists p',
    merge stamp (get_project_metrics issues) velocity phases (VDict p) = Ok (VDict p')
    /\ dict_get p' "current_status"
       = Some (VDict (merged_status stamp phases (blocked_count issues) cs))
    /\ dict_get p' "metrics"
       = Some (VDict (merged_metrics (get_project_metrics issues) velocity m vel))
    /\ dict_get p' "phases" = Some (VList (map VDict phases))
    /\ forall k, k <> "current_status" -> k <> "metrics" -> k <> "phases" ->
                 dict_get p' k = dict_get p k.
Proof.
  intros Hcs Hm Hvel Hshape. unfold merge.
  set (cs1 := dict_set cs "last_updated" (VStr stamp)).
  set (m1 := dict_update m (get_project_metrics issues)).
  set (m2 := merged_metrics (get_project_metrics issues) velocity m vel).
  rewrite (within_set p "current_status" _ (VDict cs) (VDict cs1))
    by (assumption || reflexivity).
  cbn [bind]. set (p1 := dict_set p "current_status" (VDict cs1)).
  rewrite (within_set p1 "metrics" _ (VDict m) (VDict m1));
    [|unfold p1; dict_simpl; assumption|reflexivity].
  cbn [bind]. set (p2 := dict_set p1 "metrics" (VDict m1)).
  assert (Hvel1 : dict_get m1 "velocity" = Some (VDict vel)).
  { unfold m1. now rewrite metrics_update. }
  rewrite (within_set p2 "metrics" _ (VDict m1) (VDict m2));
    [|apply dict_get_set_eq
     |apply (within_set m1 "velocity" _ (VDict vel)); [assumption|reflexivity]].
  cbn [bind setitem]. set (p3 := dict_set p2 "metrics" (VDict m2)).
  set (p4 := dict_set p3 "phases" (VList (map VDict phases))).
  rewrite (determine_current_phase_shaped phases p4 cs1);
    [|assumption|unfold p4, p3, p2, p1; dict_simpl; reflexivity].
  cbn [bind].
  set (cs2 := current_phase_fields phases cs1).
  set (p5 := dict_set p4 "current_status" (VDict cs2)).
  rewrite (update_health_shaped p5 cs2 m2 (blocked_count issues));
    [|apply dict_get_set_eq
     |unfold p5, p4, p3; dict_simpl; reflexivity
     |unfold m2, merged_metrics; dict_simpl; rewrite metrics_update;
      now rewrite blocked_tasks_metrics].
  eexists. split; [reflexivity|].
  split; [apply dict_get_set_eq|].
  split; [unfold p5, p4, p3; dict_simpl; reflexivity|].
  split; [unfold p5, p4; dict_simpl; reflexivity|].
  intros k N1 N2 N3.
  unfold p5, p4, p3, p2, p1.
  rewrite !dict_get_set_neq by congruence. reflexivity.
Qed.

Lemma mapM_Forall {A B : Type} (f : A -> outcome B) (P : B -> Prop) (l : list A) (ys : list B) :
  (forall x y, f x = Ok y -> P y) -> mapM f l = Ok ys -> Forall P ys.
Proof.
  intros HP. revert ys. induction l as [|x rest IH]; simpl; intros ys H.
  - injection H as <-. constructor.
  - apply bind_Ok in H as [y [Hy H]]. apply bind_Ok in H as [ys' [Hys H]].
    injection H as <-. constructor; [now apply (HP x) | now apply IH].
Qed.

Lemma get_phase_status_shaped (issues : list issue) (phases : list pydict) :
  get_phase_status issues = Ok phases -> Forall phase_shaped phases.
Proof.
  apply mapM_Forall. intros entry record H. unfold phase_record in H.
  apply bind_Ok in H as [phase_name [_ H]]. injection H as <-.
  unfold phase_shaped. repeat eexists.
Qed.

(** A merge that succeeds found the keys it reads. *)
Lemma merge_Ok_shape (stamp : string) (issues : list issue) (velocity : Q)
    (phases : list pydict) (doc doc' : value) :
  merge stamp (get_project_metrics issues) velocity phases doc = Ok doc' ->
  exists p cs m vel,
    doc = VDict p
    /\ dict_get p "current_status" = Some (VDict cs)
    /\ dict_get p "metrics" = Some (VDict m)
    /\ dict_get m "velocity" = Some (VDict vel).
Proof.
  unfold merge. intros H.
  apply bind_Ok in H as [x1 [H1 H]].
  apply within_Ok in H1 as (p & inner & inner' & -> & Hcs & Hset & ->).
  apply setitem_Ok in Hset as [cs [-> ->]].
  apply bind_Ok in H as [x2 [H2 H]].
  apply within_Ok in H2 as (d2 & inner2 & inner2' & E & Hm & Hupd & ->).
  injection E as <-.
  apply update_Ok in Hupd as [m [-> ->]].
  rewrite dict_get_set_neq in Hm by discriminate.
  apply bind_Ok in H as [x3 [H3 _]].
  apply within_Ok in H3 as (d3 & inner3 & inner3' & E & Hm' & Hw & ->).
  injection E as <-.
  rewrite dict_get_set_eq in Hm'. injection Hm' as <-.
  apply within_Ok in Hw as (d4 & inner4 & inner4' & E & Hv & Hs & ->).
  injection E as <-.
  rewrite !dict_get_set_neq in Hv by discriminate.
  apply setitem_Ok in Hs as [vel [-> _]].
  now exists p, cs, m, vel.
Qed.

(** What a completed run went through. *)
Lemma run_Ok (env : environment) (file : file_state) (w : world) :
  run env file = (w, Ok tt) ->
  exists (doc : value) (issues : list issue) (velocity : Q) (phases : list pydict)
         (doc' : value),
    file = Document doc
    /\ fetch env = FetchReturns (IssueArray issues)
    /\ calculate_velocity (now env) issues = Ok velocity
    /\ get_phase_status issues = Ok phases
    /\ merge (stamp env) (get_project_metrics issues) velocity phases doc = Ok doc'
    /\ write env = WriteSucceeds
    /\ disk w = Document doc'
    /\ trace w = [ OpenedForRead; HttpGet; OpenedForWrite; Dumped doc';
                   PrintedProgress (field (get_project_metrics issues) "completed_tasks")
                                   (field (get_project_metrics issues) "total_tasks");
                   PrintedVelocity (format_2f velocity) ].
Proof.
  destruct env as [f n s wr].
  unfold run, update_progress_file, io_bind, load_progress, get_issues, pure,
    dump_progress, io_bind, emit, set_disk.
  cbn [disk trace fetch now stamp write fst app].
  destruct file as [| | | |doc]; try discriminate.
  - destruct f as [e|[issues|msg]]; cbn [iterate]; try discriminate;
      destruct (calculate_velocity n issues); try discriminate;
      destruct (get_phase_status issues); discriminate.
  - destruct f as [e|[issues|msg]]; cbn [iterate]; try discriminate.
    destruct (calculate_velocity n issues) as [velocity|] eqn:Hv; try discriminate.
    destruct (get_phase_status issues) as [phases|] eqn:Hp; try discriminate.
    destruct (merge s (get_project_metrics issues) velocity phases doc) as [doc'|] eqn:Hm;
      try discriminate.
    destruct wr; try discriminate.
    cbn. intros H. injection H as <-.
    exists doc, issues, velocity, phases, doc'. repeat split; assumption.
Qed.

Lemma merged_metrics_get (issues : list issue) (velocity : Q) (m vel : pydict) (k : string) :
  dict_get (merged_metrics (get_project_metrics issues) velocity m vel) k =
  if "velocity" =? k
  then Some (VDict (dict_set vel "current" (VFloat (round2 velocity))))
  else match dict_get (get_project_metrics issues) k with
       | Some v => Some v
       | None => dict_get m k
       end.
Proof. unfold merged_metrics. now rewrite dict_get_set, metrics_update. Qed.

(** A completed run, with the stored document described key by key. *)
Lemma run_Ok_merged (env : environment) (file : file_state) (w : world) :
  run env file = (w, Ok tt) ->
  exists (issues : list issue) (velocity : Q) (phases : list pydict)
         (p cs m vel p' : pydict),
    file = Document (VDict p)
    /\ fetch env = FetchReturns (IssueArray issues)
    /\ write env = WriteSucceeds
    /\ calculate_velocity (now env) issues = Ok velocity
    /\ get_phase_status issues = Ok phases
    /\ dict_get p "current_status" = Some (VDict cs)
    /\ dict_get p "metrics" = Some (VDict m)
    /\ dict_get m "velocity" = Some (VDict vel)
    /\ merge (stamp env) (get_project_metrics issues) velocity phases (VDict p)
       = Ok (VDict p')
    /\ disk w = Document (VDict p')
    /\ dict_get p' "current_status"
       = Some (VDict (merged_status (stamp env) phases (blocked_count issues) cs))
    /\ dict_get p' "metrics"
       = Some (VDict (merged_metrics (get_project_metrics issues) velocity m vel))
    /\ dict_get p' "phases" = Some (VList (map VDict phases))
    /\ forall k, k <> "current_status" -> k <> "metrics" -> k <> "phases" ->
                 dict_get p' k = dict_get p k.
Proof.
  intros H.
  apply run_Ok in H
    as (doc & issues & velocity & phases & doc' & -> & Hf & Hv & Hp & Hm & Hw & Hd & _).
  destruct (merge_Ok_shape _ _ _ _ _ _ Hm) as (p & cs & m & vel & -> & Hcs & Hmm & Hvel).
  destruct (merge_shaped (stamp env) issues velocity phases p cs m vel Hcs Hmm Hvel
              (get_phase_status_shaped _ _ Hp))
    as (p' & Hm' & H1 & H2 & H3 & H4).
  rewrite Hm' in Hm. injection Hm as <-.
  exists issues, velocity, phases, p, cs, m, vel, p'.
  repeat (split; [first [assumption | reflexivity]|]). assumption.
Qed.

(** A run on a document with the needed keys, over well-formed issues, with
    a file that can be written, completes. *)
Lemma run_succeeds (env : environment) (doc : value) (issues : list issue) :
  shaped doc -> stamped issues ->
  fetch env = FetchReturns (IssueArray issues) ->
  write env = WriteSucceeds ->
  exists w, run env (Document doc) = (w, Ok tt).
Proof.
  intros (cs & vel & Hcs & Hvel) Hst Hf Hw.
  destruct doc as [| | | | | |p]; try discriminate.
  cbn [lookup] in Hcs, Hvel.
  destruct (dict_get p "metrics") as [[| | | | | |m]|] eqn:Hm; try discriminate.
  destruct (dict_get p "current_status") as [c|] eqn:Hc; [|discriminate].
  injection Hcs as ->.
  destruct (dict_get m "velocity") as [v|] eqn:Hmv; [|discriminate].
  injection Hvel as ->.
  destruct (get_phase_status_total issues) as (phases & Hp).
  destruct (merge_shaped (stamp env) issues
              (if (count (fun i => in_state "closed" i && without_marker i) issues =? 0)%nat
               then 0%Q
               else (Z.of_nat (count (fun i => in_state "closed" i && without_marker i
                                               && closed_after (now env - seven_days) i)
                                     issues) # 7)%Q)
              phases p cs m vel Hc Hm Hmv (get_phase_status_shaped _ _ Hp))
    as (p' & Hmerge & _).
  destruct env as [f n s wr]. cbn [fetch now stamp write] in *. subst f wr.
  unfold run, update_progress_file, io_bind, load_progress, get_issues, pure,
    dump_progress, io_bind, emit, set_disk.
  cbn [disk trace fetch now stamp write fst app iterate].
  rewrite (calculate_velocity_stamped n issues Hst), Hp, Hmerge.
  eexists. reflexivity.
Qed.

(* ------------------------------------------------------------------ *)
(** ** The stored document *)

Lemma says_in_progress_true (record : pydict) :
  says_in_progress record = true <-> dict_get record "status" = Some (VStr "in_progress").
Proof.
  unfold says_in_progress. destruct (dict_get record "status") as [[| | | |s| |]|];
    simpl; split; try discriminate.
  - intros H. apply String.eqb_eq in H. now subst s.
  - intros [= ->]. reflexivity.
Qed.

Lemma find_first {A : Type} (p : A -> bool) (before : list A) (x : A) (after : list A) :
  (forall y, In y before -> p y = false) -> p x = true ->
  find p (before ++ x :: after)%list = Some x.
Proof.
  intros Hb Hx. induction before as [|y rest IH]; simpl.
  - now rewrite Hx.
  - rewrite (Hb y (or_introl eq_refl)). apply IH. intros z Hz. apply Hb. now right.
Qed.

Lemma find_nowhere {A : Type} (p : A -> bool) (l : list A) :
  (forall y, In y l -> p y = false) -> find p l = None.
Proof.
  intros H. induction l as [|y rest IH]; simpl; [reflexivity|].
  rewrite (H y (or_introl eq_refl)). apply IH. intros z Hz. apply H. now right.
Qed.

Lemma says_in_progress_false (record : pydict) :
  dict_get record "status" <> Some (VStr "in_progress") -> says_in_progress record = false.
Proof.
  intros H. destruct (says_in_progress record) eqn:E; [|reflexivity].
  now apply says_in_progress_true in E.
Qed.

Lemma phase_shaped_fields (record : pydict) :
  phase_shaped record ->
  dict_get record "phase" = Some (field record "phase")
  /\ dict_get record "name" = Some (field record "name").
Proof.
  intros (number & phase_name & status & total & completed & ->). split; reflexivity.
Qed.

(** C3. The scan goes through the computed phases in order: the first
    record whose status is "in_progress" gives current_status.phase and
    current_status.phase_name; when no record has that status, both keep
    what the existing document had (a missing key stays missing). *)
Theorem current_phase_scan (env : environment) (file : file_state) (w : world)
    (Hrun : run env file = (w, Ok tt)) :
  exists (doc doc' : value) (issues : list issue) (phases : list pydict),
    file = Document doc
    /\ disk w = Document doc'
    /\ fetch env = FetchReturns (IssueArray issues)
    /\ get_phase_status issues = Ok phases
    /\ lookup ["phases"] doc' = Some (VList (map VDict phases))
    /\ (forall (before : list pydict) (record : pydict) (after : list pydict),
          phases = (before ++ record :: after)%list ->
          (forall r, In r before -> dict_get r "status" <> Some (VStr "in_progress")) ->
          dict_get record "status" = Some (VStr "in_progress") ->
          lookup ["current_status"; "phase"] doc' = dict_get record "phase"
          /\ lookup ["current_status"; "phase_name"] doc' = dict_get record "name")
    /\ ((forall r, In r phases -> dict_get r "status" <> Some (VStr "in_progress")) ->
        lookup ["current_status"; "phase"] doc' = lookup ["current_status"; "phase"] doc
        /\ lookup ["current_status"; "phase_name"] doc'
           = lookup ["current_status"; "phase_name"] doc).
Proof.
  apply run_Ok_merged in Hrun
    as (issues & velocity & phases & p & cs & m & vel & p'
        & -> & Hf & _ & _ & Hp & Hcs & _ & _ & _ & Hd & Hcs' & _ & Hph & _).
  exists (VDict p), (VDict p'), issues, phases.
  repeat (split; [first [assumption | reflexivity]|]).
  cbn [lookup]. rewrite Hcs', Hcs, Hph. unfold merged_status, current_phase_fields.
  split; [reflexivity|]. split.
  - intros before record after -> Hbefore Hrecord.
    rewrite (find_first says_in_progress before record after)
      by (intros; now (apply says_in_progress_false; apply Hbefore)
                      || apply says_in_progress_true).
    apply get_phase_status_shaped in Hp. rewrite Forall_forall in Hp.
    destruct (phase_shaped_fields record) as [E1 E2];
      [apply Hp, in_or_app; right; now left|].
    rewrite E1, E2. dict_simpl. split; reflexivity.
  - intros Hnone.
    rewrite find_nowhere by (intros; now apply says_in_progress_false, Hnone).
    dict_simpl. split; reflexivity.
Qed.

Lemma current_phase_scan_witness :
  lookup ["current_status"; "phase"]
         match disk (fst (run sample_environment (Document sample_document))) with
         | Document doc' => doc'
         | _ => VNone
         end
  = Some (VInt 1).
Proof.
  destruct (current_phase_scan sample_environment (Document sample_document)
              (fst (run sample_environment (Document sample_document))) eq_refl)
    as (doc & doc' & issues & phases & _ & Hd & Hf & Hp & _ & Hfirst & _).
  rewrite Hd. injection Hf as <-.
  vm_compute in Hp. injection Hp as <-.
  refine (proj1 (Hfirst [] _ _ eq_refl _ eq_refl)).
  intros r [].
Defined.

Lemma health_of_cases (blocked : Z) :
  (0 <= blocked)%Z ->
  (health_of blocked = "red" <-> (blocked > 2)%Z)
  /\ (health_of blocked = "yellow" <-> blocked = 1%Z \/ blocked = 2%Z)
  /\ (health_of blocked = "green" <-> blocked = 0%Z).
Proof.
  intros Hpos. unfold health_of.
  destruct (Z.ltb_spec 2 blocked); [|destruct (Z.ltb_spec 0 blocked)];
    repeat split; intros; try discriminate; try lia.
Qed.

(** C4. After every completed run, current_status.health is "red" exactly
    when blocked_tasks is above 2, "yellow" exactly when it is 1 or 2 and
    "green" exactly when it is 0, where blocked_tasks is the stored counter,
    the number of open issues labelled "blocked". *)
Theorem health_from_blocked (env : environment) (file : file_state) (w : world)
    (Hrun : run env file = (w, Ok tt)) :
  exists (doc' : value) (issues : list issue) (blocked : Z) (health : string),
    disk w = Document doc'
    /\ fetch env = FetchReturns (IssueArray issues)
    /\ lookup ["metrics"; "blocked_tasks"] doc' = Some (VInt blocked)
    /\ blocked = Z.of_nat (count (fun i => in_state "open" i && carries "blocked" i) issues)
    /\ lookup ["current_status"; "health"] doc' = Some (VStr health)
    /\ (health = "red" <-> (blocked > 2)%Z)
    /\ (health = "yellow" <-> blocked = 1%Z \/ blocked = 2%Z)
    /\ (health = "green" <-> blocked = 0%Z).
Proof.
  apply run_Ok_merged in Hrun
    as (issues & velocity & phases & p & cs & m & vel & p'
        & -> & Hf & _ & _ & _ & _ & _ & _ & _ & Hd & Hcs' & Hm' & _ & _).
  exists (VDict p'), issues, (blocked_count issues), (health_of (blocked_count issues)).
  split; [assumption|]. split; [assumption|].
  cbn [lookup]. rewrite Hm', Hcs', merged_metrics_get, blocked_tasks_metrics.
  unfold merged_status. rewrite dict_get_set_eq.
  split; [reflexivity|]. split; [reflexivity|]. split; [reflexivity|].
  apply health_of_cases. unfold blocked_count. lia.
Qed.

Lemma health_from_blocked_witness :
  exists doc' : value,
    disk (fst (run sample_environment (Document sample_document))) = Document doc'
    /\ lookup ["metrics"; "blocked_tasks"] doc' = Some (VInt 1)
    /\ lookup ["current_status"; "health"] doc' = Some (VStr "yellow").
Proof.
  destruct (health_from_blocked sample_environment (Document sample_document)
              (fst (run sample_environment (Document sample_document))) eq_refl)
    as (doc' & issues & blocked & health & Hd & Hf & Hb & Hcount & Hh & _ & Hyellow & _).
  injection Hf as <-. vm_compute in Hcount. subst blocked.
  exists doc'. split; [exact Hd|]. split; [exact Hb|].
  rewrite Hh. f_equal. f_equal. apply Hyellow. now left.
Defined.

(** C7. The metrics merge is shallow.  After a completed run the metrics
    mapping holds the four computed counters under total_tasks,
    completed_tasks, in_progress_tasks and blocked_tasks, its velocity
    mapping holds the rounded velocity under current and whatever it held
    under its other keys, and every other key of the metrics mapping holds
    what it held before. *)
Theorem metrics_merge_shallow (env : environment) (file : file_state) (w : world)
    (Hrun : run env file = (w, Ok tt)) :
  exists (doc doc' : value) (issues : list issue) (velocity : Q)
         (m m' vel vel' : pydict),
    file = Document doc
    /\ disk w = Document doc'
    /\ fetch env = FetchReturns (IssueArray issues)
    /\ calculate_velocity (now env) issues = Ok velocity
    /\ lookup ["metrics"] doc = Some (VDict m)
    /\ lookup ["metrics"] doc' = Some (VDict m')
    /\ (forall k, In k counter_keys ->
                  dict_get m' k = dict_get (get_project_metrics issues) k)
    /\ (forall k, ~ In k counter_keys -> k <> "velocity" ->
                  dict_get m' k = dict_get m k)
    /\ dict_get m "velocity" = Some (VDict vel)
    /\ dict_get m' "velocity" = Some (VDict vel')
    /\ dict_get vel' "current" = Some (VFloat (round2 velocity))
    /\ (forall k, k <> "current" -> dict_get vel' k = dict_get vel k).
Proof.
  apply run_Ok_merged in Hrun
    as (issues & velocity & phases & p & cs & m & vel & p'
        & -> & Hf & _ & Hv & _ & _ & Hm & Hvel & _ & Hd & _ & Hm' & _ & _).
  exists (VDict p), (VDict p'), issues, velocity, m,
         (merged_metrics (get_project_metrics issues) velocity m vel),
         vel, (dict_set vel "current" (VFloat (round2 velocity))).
  repeat (split; [first [assumption | reflexivity]|]).
  cbn [lookup]. rewrite Hm, Hm'.
  split; [reflexivity|]. split; [reflexivity|]. split.
  { intros k Hk. rewrite merged_metrics_get.
    unfold counter_keys in Hk. simpl in Hk.
    repeat (destruct Hk as [<-|Hk]; [reflexivity|]). contradiction. }
  split.
  { intros k Hk Hkv. rewrite merged_metrics_get.
    apply String.eqb_neq in Hkv. rewrite String.eqb_sym, Hkv.
    assert (Hnone : dict_get (get_project_metrics issues) k = None).
    { unfold get_project_metrics. cbn [dict_get].
      unfold counter_keys in Hk. simpl in Hk.
      repeat match goal with
             | |- context [?a =? k] =>
                 destruct (String.eqb_spec a k) as [?|?]; [exfalso; apply Hk; tauto|]
             end.
      reflexivity. }
    now rewrite Hnone. }
  split; [assumption|].
  split; [rewrite merged_metrics_get; reflexivity|].
  split; [apply dict_get_set_eq|].
  intros k Hk. now apply dict_get_set_neq.
Qed.

Lemma metrics_merge_shallow_witness :
  exists (doc' : value) (m' : pydict),
    disk (fst (run sample_environment (Document sample_document))) = Document doc'
    /\ lookup ["metrics"] doc' = Some (VDict m')
    /\ dict_get m' "estimated_hours" = Some (VInt 120)
    /\ dict_get m' "total_tasks" = Some (VInt 2).
Proof.
  destruct (metrics_merge_shallow sample_environment (Document sample_document)
              (fst (run sample_environment (Document sample_document))) eq_refl)
    as (doc & doc' & issues & velocity & m & m' & vel & vel'
        & Hfile & Hd & Hf & _ & Hm & Hm' & Hcounters & Hothers & _).
  injection Hfile as <-. injection Hf as <-.
  cbn in Hm. injection Hm as <-.
  exists doc', m'. split; [exact Hd|]. split; [exact Hm'|]. split.
  - rewrite Hothers; [reflexivity| |discriminate].
    intros [H|[H|[H|[H|[]]]]]; discriminate H.
  - rewrite Hcounters; [reflexivity|now left].
Defined.

(* ------------------------------------------------------------------ *)
(** ** What decides the velocity *)

Lemma filterM_find (bound : Z) (l : list issue) :
  filterM (fun i => t <- closed_timestamp i ;; Ok (bound <? t)%Z) l
  = match find (fun i => match closed_at i with
                         | Instant _ => false
                         | _ => true
                         end) l with
    | Some i => Raise (timestamp_error i)
    | None => Ok (filter (closed_after bound) l)
    end.
Proof.
  induction l as [|i rest IH]; [reflexivity|].
  cbn [filterM find filter]. unfold closed_timestamp at 1, closed_after at 1.
  unfold timestamp_error at 1.
  destruct (closed_at i) as [| |t] eqn:E; cbn [bind]; try (now rewrite E).
  rewrite IH. destruct (find _ rest); reflexivity.
Qed.

Lemma find_filter {A : Type} (p q : A -> bool) (l : list A) :
  find q (filter p l) = find (fun x => p x && q x) l.
Proof.
  induction l as [|x rest IH]; [reflexivity|]. simpl.
  destruct (p x); simpl; [destruct (q x)|]; auto.
Qed.

Lemma calculate_velocity_find (now : Z) (issues : list issue) :
  calculate_velocity now issues =
  match find offending issues with
  | Some i => Raise (timestamp_error i)
  | None =>
      Ok (if (count (fun i => in_state "closed" i && without_marker i) issues =? 0)%nat
          then 0%Q
          else (Z.of_nat (count (fun i => in_state "closed" i && without_marker i
                                          && closed_after (now - seven_days) i)
                                issues) # 7)%Q)
  end.
Proof.
  unfold calculate_velocity. rewrite closed_issues_filter.
  rewrite <- (length_filter_count (fun i => in_state "closed" i && without_marker i)).
  rewrite <- count_filter.
  change offending with
    (fun i => (in_state "closed" i && without_marker i)
              && match closed_at i with Instant _ => false | _ => true end).
  rewrite <- find_filter.
  destruct (filter _ issues) as [|c rest] eqn:E; [reflexivity|].
  rewrite filterM_find.
  destruct (find _ (c :: rest)); [reflexivity|].
  cbn [bind]. rewrite length_filter_count. reflexivity.
Qed.

Lemma count_differs {A : Type} (p q : A -> bool) (l : list A) :
  count p l <> count q l -> exists x, In x l /\ p x <> q x.
Proof.
  induction l as [|x rest IH]; simpl; intros H; [congruence|].
  destruct (bool_dec (p x) (q x)) as [E|E].
  - destruct IH as [y [Hy Hpq]]; [rewrite E in H; lia|].
    exists y. split; [now right | assumption].
  - exists x. split; [now left | assumption].
Qed.

(** When the clock has not gone back, two velocities over the same issues
    differ only if a closed issue without a pull-request marker was closed
    inside the first seven-day window and outside the second. *)
Lemma velocity_change_cause (n1 n2 : Z) (issues : list issue) (v1 v2 : Q) :
  (n1 <= n2)%Z ->
  calculate_velocity n1 issues = Ok v1 ->
  calculate_velocity n2 issues = Ok v2 ->
  v2 <> v1 ->
  exists (i : issue) (t : Z),
    In i issues /\ state i = "closed" /\ pull_request i = None
    /\ closed_at i = Instant t
    /\ (n1 - seven_days < t <= n2 - seven_days)%Z.
Proof.
  intros Hn H1 H2 Hne. rewrite calculate_velocity_find in H1, H2.
  destruct (find offending issues); [discriminate|].
  injection H1 as <-. injection H2 as <-.
  destruct (_ =? 0)%nat; [congruence|].
  destruct (count_differs
              (fun i => in_state "closed" i && without_marker i
                        && closed_after (n1 - seven_days) i)
              (fun i => in_state "closed" i && without_marker i
                        && closed_after (n2 - seven_days) i) issues)
    as [i [Hin Hpq]]; [congruence|].
  destruct (in_state "closed" i && without_marker i) eqn:Hc; [|now elim Hpq].
  apply andb_true_iff in Hc as [Hclosed Hmarker].
  unfold closed_after in Hpq. simpl in Hpq.
  destruct (closed_at i) as [| |t] eqn:Ht; try (now elim Hpq).
  exists i, t. split; [assumption|]. split.
  { unfold in_state in Hclosed. now destruct (string_dec (state i) "closed"). }
  split.
  { unfold without_marker in Hmarker. now destruct (pull_request i). }
  split; [exact Ht|].
  destruct (Z.ltb_spec (n1 - seven_days) t), (Z.ltb_spec (n2 - seven_days) t);
    try (now elim Hpq); lia.
Qed.

(* ------------------------------------------------------------------ *)
(** ** Running twice *)

Lemma run_completes (env : environment) (doc doc' : value) (issues : list issue)
    (velocity : Q) (phases : list pydict) :
  fetch env = FetchReturns (IssueArray issues) ->
  write env = WriteSucceeds ->
  calculate_velocity (now env) issues = Ok velocity ->
  get_phase_status issues = Ok phases ->
  merge (stamp env) (get_project_metrics issues) velocity phases doc = Ok doc' ->
  run env (Document doc)
  = ({| disk := Document doc';
        trace := [ OpenedForRead; HttpGet; OpenedForWrite; Dumped doc';
                   PrintedProgress (field (get_project_metrics issues) "completed_tasks")
                                   (field (get_project_metrics issues) "total_tasks");
                   PrintedVelocity (format_2f velocity) ] |}, Ok tt).
Proof.
  intros Hf Hw Hv Hp Hm.
  destruct env as [f n s wr]. cbn [fetch now stamp write] in *. subst f wr.
  unfold run, update_progress_file, io_bind, load_progress, get_issues, pure,
    dump_progress, io_bind, emit, set_disk.
  cbn [disk trace fetch now stamp write fst app iterate].
  rewrite Hv, Hp, Hm. reflexivity.
Qed.

Lemma filterM_defined (b1 b2 : Z) (l r1 : list issue) :
  filterM (fun i => t <- closed_timestamp i ;; Ok (b1 <? t)%Z) l = Ok r1 ->
  exists r2, filterM (fun i => t <- closed_timestamp i ;; Ok (b2 <? t)%Z) l = Ok r2.
Proof.
  revert r1. induction l as [|i rest IH]; intros r1 H; simpl in *.
  - now exists [].
  - destruct (closed_timestamp i) as [t|e]; [|discriminate]. simpl in *.
    apply bind_Ok in H as [keep [Hk _]].
    destruct (IH keep Hk) as [keep2 Hk2]. rewrite Hk2. simpl. eauto.
Qed.

(** Whether the velocity is defined does not depend on the clock. *)
Lemma calculate_velocity_defined (n1 n2 : Z) (issues : list issue) (v1 : Q) :
  calculate_velocity n1 issues = Ok v1 ->
  exists v2, calculate_velocity n2 issues = Ok v2.
Proof.
  unfold calculate_velocity.
  destruct (filter _ issues) as [|c rest]; [eauto|].
  intros H. apply bind_Ok in H as [r1 [Hr _]].
  destruct (filterM_defined _ (n2 - seven_days) _ _ Hr) as [r2 Hr2].
  rewrite Hr2. simpl. eauto.
Qed.

Lemma metrics_pairs (issues : list issue) (k : string) (v : value) :
  In (k, v) (get_project_metrics issues) ->
  dict_get (get_project_metrics issues) k = Some v /\ k <> "velocity".
Proof.
  unfold get_project_metrics. intros H. simpl in H.
  repeat (destruct H as [H|H]; [injection H as <- <-; split; [reflexivity|discriminate]|]).
  contradiction.
Qed.

(** Merging into a document that already holds the computed counters, phases,
    phase pointer and health only restamps it. *)
Lemma merge_settled (stamp : string) (issues : list issue) (velocity : Q)
    (phases : list pydict) (p cs m vel : pydict) :
  dict_get p "current_status" = Some (VDict cs) ->
  dict_get p "metrics" = Some (VDict m) ->
  dict_get p "phases" = Some (VList (map VDict phases)) ->
  dict_get m "velocity" = Some (VDict vel) ->
  (forall k v, In (k, v) (get_project_metrics issues) -> dict_get m k = Some v) ->
  Forall phase_shaped phases ->
  (forall r, find says_in_progress phases = Some r ->
             dict_get cs "phase" = Some (field r "phase")
             /\ dict_get cs "phase_name" = Some (field r "name")) ->
  dict_get cs "health" = Some (VStr (health_of (blocked_count issues))) ->
  merge stamp (get_project_metrics issues) velocity phases (VDict p)
  = restamp stamp (round2 velocity) (VDict p).
Proof.
  intros Hcs Hm Hph Hvel Hcounters Hshape Hphase Hhealth.
  unfold merge, restamp.
  set (cs1 := dict_set cs "last_updated" (VStr stamp)).
  rewrite (within_set p "current_status" _ (VDict cs) (VDict cs1))
    by (assumption || reflexivity).
  cbn [bind]. set (p1 := dict_set p "current_status" (VDict cs1)).
  assert (Hm1 : dict_get p1 "metrics" = Some (VDict m))
    by (unfold p1; dict_simpl; assumption).
  rewrite (within_noop p1 "metrics" (fun m0 => update m0 (get_project_metrics issues))
             (VDict m) Hm1)
    by (cbn [update]; now rewrite dict_update_noop).
  cbn [bind].
  set (m3 := dict_set m "velocity" (VDict (dict_set vel "current" (VFloat (round2 velocity))))).
  rewrite (within_set p1 "metrics" _ (VDict m) (VDict m3) Hm1)
    by (apply (within_set m "velocity" _ (VDict vel)); [assumption|reflexivity]).
  cbn [bind setitem]. set (p3 := dict_set p1 "metrics" (VDict m3)).
  assert (Hcs3 : dict_get p3 "current_status" = Some (VDict cs1))
    by (unfold p3, p1; dict_simpl; reflexivity).
  rewrite (dict_set_same p3 "phases")
    by (unfold p3, p1; dict_simpl; assumption).
  rewrite (determine_current_phase_shaped phases p3 cs1 Hshape Hcs3).
  assert (Hfields : current_phase_fields phases cs1 = cs1).
  { unfold current_phase_fields.
    destruct (find says_in_progress phases) as [r|]; [|reflexivity].
    destruct (Hphase r eq_refl) as [E1 E2].
    rewrite (dict_set_same cs1 "phase") by (unfold cs1; dict_simpl; assumption).
    apply dict_set_same. unfold cs1. dict_simpl. assumption. }
  rewrite Hfields, (dict_set_same p3 "current_status" _ Hcs3). cbn [bind].
  rewrite (update_health_shaped p3 cs1 m3 (blocked_count issues) Hcs3);
    [|apply dict_get_set_eq
     |unfold m3; dict_simpl; apply Hcounters; rewrite get_project_metrics_counts;
      right; right; right; left; reflexivity].
  rewrite (dict_set_same cs1 "health") by (unfold cs1; dict_simpl; assumption).
  now rewrite (dict_set_same p3 "current_status" _ Hcs3).
Qed.

Lemma restamp_shaped (stamp : string) (current : Q) (p cs m vel : pydict) :
  dict_get p "current_status" = Some (VDict cs) ->
  dict_get p "metrics" = Some (VDict m) ->
  dict_get m "velocity" = Some (VDict vel) ->
  restamp stamp current (VDict p)
  = Ok (VDict (dict_set (dict_set p "current_status"
                           (VDict (dict_set cs "last_updated" (VStr stamp))))
                        "metrics"
                        (VDict (dict_set m "velocity"
                                  (VDict (dict_set vel "current" (VFloat current))))))).
Proof.
  intros Hcs Hm Hvel. unfold restamp.
  rewrite (within_set p "current_status" _ (VDict cs)
             (VDict (dict_set cs "last_updated" (VStr stamp))))
    by (assumption || reflexivity).
  cbn [bind].
  apply (within_set _ "metrics" _ (VDict m)).
  - dict_simpl. assumption.
  - apply (within_set m "velocity" _ (VDict vel)); [assumption|reflexivity].
Qed.

(** C9, as the code has it.  A second run over the same issue data, on the
    file the first run wrote, completes and only restamps the document: the
    phases sequence, the four counters and every other entry are identical,
    current_status.last_updated is the new stamp, and
    metrics.velocity.current is the velocity at the second reading of the
    clock; when the two rounded velocities agree, last_updated is the only
    difference, and when the clock has not gone back between the runs they
    disagree only if a closed issue without a pull-request marker was closed
    inside the first seven-day window and outside the second. *)
Theorem rerun_only_restamps (env1 env2 : environment) (file : file_state) (w1 : world)
    (Hsame : fetch env2 = fetch env1)
    (Hwrite : write env2 = WriteSucceeds)
    (Hfirst : run env1 file = (w1, Ok tt)) :
  exists (w2 : world) (doc1 doc2 : value) (issues : list issue) (v1 v2 : Q),
    run env2 (disk w1) = (w2, Ok tt)
    /\ disk w1 = Document doc1
    /\ disk w2 = Document doc2
    /\ fetch env1 = FetchReturns (IssueArray issues)
    /\ calculate_velocity (now env1) issues = Ok v1
    /\ calculate_velocity (now env2) issues = Ok v2
    /\ restamp (stamp env2) (round2 v2) doc1 = Ok doc2
    /\ lookup ["phases"] doc2 = lookup ["phases"] doc1
    /\ (forall k, k <> "velocity" ->
                  lookup ["metrics"; k] doc2 = lookup ["metrics"; k] doc1)
    /\ (forall k, k <> "current" ->
                  lookup ["metrics"; "velocity"; k] doc2
                  = lookup ["metrics"; "velocity"; k] doc1)
    /\ (forall k, k <> "last_updated" ->
                  lookup ["current_status"; k] doc2 = lookup ["current_status"; k] doc1)
    /\ (forall k, k <> "current_status" -> k <> "metrics" ->
                  lookup [k] doc2 = lookup [k] doc1)
    /\ lookup ["current_status"; "last_updated"] doc2 = Some (VStr (stamp env2))
    /\ lookup ["metrics"; "velocity"; "current"] doc2 = Some (VFloat (round2 v2))
    /\ lookup ["metrics"; "velocity"; "current"] doc1 = Some (VFloat (round2 v1))
    /\ (round2 v2 = round2 v1 ->
        within doc1 "current_status"
          (fun cs => setitem cs "last_updated" (VStr (stamp env2))) = Ok doc2)
    /\ ((now env1 <= now env2)%Z -> round2 v2 <> round2 v1 ->
        exists (i : issue) (t : Z),
          In i issues /\ state i = "closed" /\ pull_request i = None
          /\ closed_at i = Instant t
          /\ (now env1 - seven_days < t <= now env2 - seven_days)%Z).
Proof.
  apply run_Ok_merged in Hfirst
    as (issues & v1 & phases & p & cs & m & vel & p'
        & -> & Hf & _ & Hv1 & Hp & _ & _ & _ & _ & Hd & Hcs' & Hm' & Hph' & _).
  destruct (calculate_velocity_defined _ (now env2) _ _ Hv1) as [v2 Hv2].
  set (cs1 := merged_status (stamp env1) phases (blocked_count issues) cs) in *.
  set (m1 := merged_metrics (get_project_metrics issues) v1 m vel) in *.
  set (vel1 := dict_set vel "current" (VFloat (round2 v1))).
  assert (Hvel1 : dict_get m1 "velocity" = Some (VDict vel1))
    by (unfold m1; now rewrite merged_metrics_get).
  pose proof (get_phase_status_shaped _ _ Hp) as Hshape.
  assert (Hsettled :
            merge (stamp env2) (get_project_metrics issues) v2 phases (VDict p')
            = restamp (stamp env2) (round2 v2) (VDict p')).
  { apply (merge_settled _ _ _ _ p' cs1 m1 vel1); try assumption.
    - intros k v Hin. apply metrics_pairs in Hin as [Hk Hn].
      unfold m1. rewrite merged_metrics_get, Hk.
      apply String.eqb_neq in Hn. now rewrite String.eqb_sym, Hn.
    - intros r Hr. unfold cs1, merged_status, current_phase_fields.
      rewrite Hr. dict_simpl. split; reflexivity.
    - unfold cs1, merged_status. apply dict_get_set_eq. }
  pose proof (restamp_shaped (stamp env2) (round2 v2) p' cs1 m1 vel1 Hcs' Hm' Hvel1)
    as Hrestamp.
  rewrite Hrestamp in Hsettled.
  rewrite <- Hsame in Hf.
  pose proof (run_completes env2 _ _ issues v2 phases Hf Hwrite Hv2 Hp Hsettled) as Hsecond.
  rewrite Hsame in Hf.
  eexists. exists (VDict p'). eexists. exists issues, v1, v2.
  rewrite Hd. split; [exact Hsecond|].
  split; [reflexivity|]. split; [reflexivity|].
  split; [assumption|]. split; [assumption|]. split; [assumption|].
  split; [exact Hrestamp|].
  cbn [lookup]. dict_simpl. rewrite Hm', Hcs', Hvel1.
  split; [reflexivity|].
  split; [intros k N; now rewrite dict_get_set_neq by congruence|].
  split; [intros k N; unfold vel1; now rewrite !dict_get_set_neq by congruence|].
  split; [intros k N; now rewrite dict_get_set_neq by congruence|].
  split; [intros k N1 N2; now rewrite !dict_get_set_neq by congruence|].
  split; [reflexivity|]. split; [reflexivity|].
  split; [unfold vel1; now rewrite dict_get_set_eq|].
  split;
    [|intros Hclock Hround;
      apply (velocity_change_cause (now env1) (now env2) issues v1 v2 Hclock Hv1 Hv2);
      intros E; apply Hround; now rewrite E].
  intros Hround.
  rewrite (within_set p' "current_status" _ (VDict cs1)
             (VDict (dict_set cs1 "last_updated" (VStr (stamp env2)))))
    by (assumption || reflexivity).
  do 2 f_equal. rewrite Hround. unfold vel1 at 1.
  rewrite dict_set_set. fold vel1.
  rewrite (dict_set_same m1 "velocity" _ Hvel1).
  symmetry. apply dict_set_same. dict_simpl. assumption.
Qed.

(** C9 as stated fails: between two runs a microsecond apart the closed
    sample issue turns seven days old, and the stored metrics differ in
    velocity.current (0.14, then 0.0). *)
Lemma rerun_velocity_differs :
  ~ (forall (env1 env2 : environment) (file : file_state) (w1 w2 : world),
        fetch env2 = fetch env1 ->
        run env1 file = (w1, Ok tt) ->
        run env2 (disk w1) = (w2, Ok tt) ->
        on_disk ["phases"] w2 = on_disk ["phases"] w1
        /\ on_disk ["metrics"] w2 = on_disk ["metrics"] w1).
Proof.
  intros H.
  destruct (H first_run second_run (Document sample_document)
              (fst (run first_run (Document sample_document)))
              (fst (run second_run
                      (disk (fst (run first_run (Document sample_document))))))
              eq_refl eq_refl eq_refl) as [_ Hmetrics].
  vm_compute in Hmetrics. discriminate Hmetrics.
Qed.

Lemma rerun_only_restamps_witness :
  exists w2 : world,
    run second_run (disk (fst (run first_run (Document sample_document)))) = (w2, Ok tt)
    /\ on_disk ["phases"] w2
       = on_disk ["phases"] (fst (run first_run (Document sample_document)))
    /\ on_disk ["metrics"; "velocity"; "current"] w2 = Some (VFloat (0 # 100))
    /\ exists (i : issue) (t : Z),
         In i sample_issues /\ closed_at i = Instant t
         /\ (now first_run - seven_days < t <= now second_run - seven_days)%Z.
Proof.
  destruct (rerun_only_restamps first_run second_run (Document sample_document)
              (fst (run first_run (Document sample_document)))
              eq_refl eq_refl eq_refl)
    as (w2 & doc1 & doc2 & issues & v1 & v2
        & Hrun & Hd1 & Hd2 & Hf & Hv1 & Hv2 & _ & Hph & _ & _ & _ & _ & _ & Hcur & _
        & _ & Hcause).
  exists w2. split; [exact Hrun|].
  unfold on_disk. rewrite Hd1, Hd2. split; [exact Hph|].
  injection Hf as <-.
  vm_compute in Hv1. injection Hv1 as <-.
  vm_compute in Hv2. injection Hv2 as <-.
  split; [rewrite Hcur; reflexivity|].
  destruct Hcause as (i & t & Hin & _ & _ & Ht & Hwindow).
  - vm_compute. discriminate.
  - vm_compute. discriminate.
  - exists i, t. split; [exact Hin|]. split; [exact Ht | exact Hwindow].
Defined.

(* ------------------------------------------------------------------ *)
(** ** Failing runs *)




(* ------------------------------------------------------------------ *)
(** ** Further properties: the counters *)

Lemma count_disjoint {A : Type} (p q : A -> bool) (l : list A) :
  (forall x, p x = true -> q x = false) -> count p l + count q l <= List.length l.
Proof.
  intros H. induction l as [|x rest IH]; simpl; [lia|].
  destruct (p x) eqn:Hp; [rewrite (H x Hp)|destruct (q x)]; lia.
Qed.

Lemma count_Permutation {A : Type} (p : A -> bool) (l l' : list A) :
  Permutation l l' -> count p l = count p l'.
Proof. induction 1; simpl; lia. Qed.

Lemma open_not_closed (i : issue) :
  in_state "open" i = true -> in_state "closed" i = false.
Proof.
  unfold in_state. destruct (string_dec (state i) "open") as [E|]; [|discriminate].
  intros _. rewrite E. reflexivity.
Qed.

(** X1. Each of the four counters lies between 0 and the number of issues,
    completed_tasks is at most total_tasks, and an issue is never counted
    both as completed and as in progress, nor both as completed and as
    blocked. *)
Theorem counters_bounded (issues : list issue) :
  exists total completed in_progress blocked : Z,
    tasks "total_tasks" (get_project_metrics issues) = Some total
    /\ tasks "completed_tasks" (get_project_metrics issues) = Some completed
    /\ tasks "in_progress_tasks" (get_project_metrics issues) = Some in_progress
    /\ tasks "blocked_tasks" (get_project_metrics issues) = Some blocked
    /\ (0 <= total <= Z.of_nat (List.length issues))%Z
    /\ (0 <= completed <= total)%Z
    /\ (0 <= in_progress <= Z.of_nat (List.length issues))%Z
    /\ (0 <= blocked <= Z.of_nat (List.length issues))%Z
    /\ (in_progress + completed <= Z.of_nat (List.length issues))%Z
    /\ (blocked + completed <= Z.of_nat (List.length issues))%Z.
Proof.
  destruct (tasks_metrics issues) as (Ht & Hc & Hi & Hb). cbv zeta in *.
  do 4 eexists. split; [exact Ht|]. split; [exact Hc|]. split; [exact Hi|].
  split; [exact Hb|].
  pose proof (count_le_length without_marker issues) as Hlen.
  pose proof (count_le (fun i => in_state "closed" i && without_marker i)
                       without_marker issues
                       (fun i Hi0 => proj2 (proj1 (andb_true_iff _ _) Hi0))) as Hsub.
  pose proof (count_disjoint
                (fun i => in_state "open" i && carries "in-progress" i)
                (fun i => in_state "closed" i && without_marker i) issues) as Hd1.
  pose proof (count_disjoint
                (fun i => in_state "open" i && carries "blocked" i)
                (fun i => in_state "closed" i && without_marker i) issues) as Hd2.
  assert (Hdis : forall tag i, in_state "open" i && carries tag i = true ->
                               in_state "closed" i && without_marker i = false).
  { intros tag i H0. apply andb_true_iff in H0 as [Ho _].
    now rewrite (open_not_closed i Ho). }
  specialize (Hd1 (Hdis "in-progress")). specialize (Hd2 (Hdis "blocked")).
  repeat split; lia.
Qed.

(** X2. The counters do not depend on the order in which the issues arrive. *)
Theorem metrics_order_independent (issues issues' : list issue)
    (Hperm : Permutation issues issues') :
  get_project_metrics issues = get_project_metrics issues'.
Proof.
  rewrite !get_project_metrics_counts.
  now rewrite !(count_Permutation _ issues issues' Hperm).
Qed.

Lemma metrics_order_independent_witness :
  get_project_metrics sample_issues = get_project_metrics (rev sample_issues).
Proof.
  apply (metrics_order_independent sample_issues (rev sample_issues)).
  apply Permutation_rev.
Defined.

(** X3. Each counter of a concatenation is the sum of the counters of its
    parts. *)
Theorem metrics_additive (first second : list issue) (key : string)
    (Hkey : In key counter_keys) :
  exists x y : Z,
    tasks key (get_project_metrics first) = Some x
    /\ tasks key (get_project_metrics second) = Some y
    /\ tasks key (get_project_metrics (first ++ second)%list) = Some (x + y)%Z.
Proof.
  destruct (tasks_metrics first) as (Ht1 & Hc1 & Hi1 & Hb1).
  destruct (tasks_metrics second) as (Ht2 & Hc2 & Hi2 & Hb2).
  destruct (tasks_metrics (first ++ second)%list) as (Ht & Hc & Hi & Hb).
  cbv zeta in *. rewrite !count_app, !Nat2Z.inj_add in *.
  unfold counter_keys in Hkey. simpl in Hkey.
  destruct Hkey as [<-|[<-|[<-|[<-|[]]]]]; do 2 eexists;
    (split; [eassumption|]); (split; [eassumption|]); assumption.
Qed.

Lemma metrics_additive_witness :
  tasks "blocked_tasks" (get_project_metrics (sample_issues ++ sample_issues)%list)
  = Some 2%Z.
Proof.
  destruct (metrics_additive sample_issues sample_issues "blocked_tasks")
    as (x & y & Hx & Hy & Hxy).
  - right; right; right; left; reflexivity.
  - vm_compute in Hx, Hy. injection Hx as <-. injection Hy as <-. exact Hxy.
Defined.

(* ------------------------------------------------------------------ *)
(** ** Further properties: the velocity *)

(** X4. The whole behaviour of [calculate_velocity]: it raises exactly when a
    closed issue without a pull-request marker has no readable closing
    instant, with the exception of the first such issue of the sequence
    (AttributeError for null, ValueError for an unreadable text); the
    closing instants of open issues and of pull requests are never read. *)
Theorem velocity_outcome (now : Z) (issues : list issue) :
  (forall i, find offending issues = Some i ->
             calculate_velocity now issues = Raise (timestamp_error i))
  /\ (find offending issues = None ->
      calculate_velocity now issues =
      Ok (if (count (fun i => in_state "closed" i && without_marker i) issues =? 0)%nat
          then 0%Q
          else (Z.of_nat (count (fun i => in_state "closed" i && without_marker i
                                          && closed_after (now - seven_days) i)
                                issues) # 7)%Q))
  /\ (forall i, find offending issues = Some i ->
                In i issues /\ state i = "closed" /\ pull_request i = None
                /\ forall t, closed_at i <> Instant t)
  /\ (find offending issues = None <-> stamped issues).
Proof.
  split; [|split; [|split]].
  - intros i E. now rewrite calculate_velocity_find, E.
  - intros E. now rewrite calculate_velocity_find, E.
  - intros i E. destruct (find_some _ _ E) as [Hin Hoff].
    unfold offending in Hoff.
    apply andb_true_iff in Hoff as [Hoff Hbad].
    apply andb_true_iff in Hoff as [Hclosed Hmarker].
    split; [assumption|]. split.
    { unfold in_state in Hclosed.
      now destruct (string_dec (state i) "closed"). }
    split.
    { unfold without_marker in Hmarker. now destruct (pull_request i). }
    intros t Ht. rewrite Ht in Hbad. discriminate.
  - unfold stamped. split.
    + intros E i Hin Hc. pose proof (find_none _ _ E i Hin) as Hoff.
      unfold offending in Hoff. rewrite Hc in Hoff. simpl in Hoff.
      destruct (closed_at i) as [| |t]; try discriminate. now exists t.
    + intros H. apply find_nowhere. intros i Hin. unfold offending.
      destruct (in_state "closed" i && without_marker i) eqn:Hc; [|reflexivity].
      destruct (H i Hin Hc) as [t Ht]. now rewrite Ht.
Qed.

Lemma velocity_outcome_witness :
  let unstamped := {| title := "Query Endpoints"; state := "closed"; labels := [];
                      pull_request := None; closed_at := Null |} in
  calculate_velocity sample_now (sample_issues ++ [unstamped])%list
  = Raise AttributeError.
Proof.
  intros unstamped.
  exact (proj1 (velocity_outcome sample_now (sample_issues ++ [unstamped])%list)
           unstamped eq_refl).
Defined.

Lemma find_None_iff {A : Type} (p : A -> bool) (l : list A) :
  find p l = None <-> forall x, In x l -> p x = false.
Proof.
  split.
  - intros H x Hx. now apply (find_none p l H).
  - apply find_nowhere.
Qed.

Lemma closed_after_later (b1 b2 : Z) (i : issue) :
  (b1 <= b2)%Z -> closed_after b2 i = true -> closed_after b1 i = true.
Proof.
  unfold closed_after. destruct (closed_at i); try discriminate.
  intros Hb H. apply Z.ltb_lt in H. apply Z.ltb_lt. lia.
Qed.

(** X5. A velocity, when there is one, is at least 0 and at most the number of
    completed tasks over 7. *)
Theorem velocity_bounds (now : Z) (issues : list issue) (v : Q)
    (Hv : calculate_velocity now issues = Ok v) :
  exists completed : Z,
    tasks "completed_tasks" (get_project_metrics issues) = Some completed
    /\ (0 <= v)%Q /\ (v <= completed # 7)%Q.
Proof.
  destruct (tasks_metrics issues) as (_ & Hc & _). cbv zeta in Hc.
  eexists. split; [exact Hc|].
  rewrite calculate_velocity_find in Hv. destruct (find offending issues); [discriminate|].
  injection Hv as <-.
  pose proof (count_le (fun i => in_state "closed" i && without_marker i
                                  && closed_after (now - seven_days) i)
                       (fun i => in_state "closed" i && without_marker i) issues) as Hle.
  assert (Hsub : forall i, in_state "closed" i && without_marker i
                           && closed_after (now - seven_days) i = true ->
                           in_state "closed" i && without_marker i = true)
    by (intros i H; now apply andb_true_iff in H).
  specialize (Hle Hsub).
  destruct (_ =? 0)%nat; unfold Qle; simpl; lia.
Qed.

Lemma velocity_bounds_witness :
  (0 <= 1 # 7)%Q /\ (1 # 7 <= 1 # 7)%Q.
Proof.
  destruct (velocity_bounds sample_now sample_issues (1 # 7)%Q eq_refl)
    as (completed & Hc & H0 & H1).
  vm_compute in Hc. injection Hc as <-. split; [exact H0 | exact H1].
Defined.

(** X6. Over the same issues the velocity never grows as the clock advances. *)
Theorem velocity_decays (earlier later : Z) (issues : list issue) (v1 v2 : Q)
    (Hclock : (earlier <= later)%Z)
    (H1 : calculate_velocity earlier issues = Ok v1)
    (H2 : calculate_velocity later issues = Ok v2) :
  (v2 <= v1)%Q.
Proof.
  rewrite calculate_velocity_find in H1, H2.
  destruct (find offending issues); [discriminate|].
  injection H1 as <-. injection H2 as <-.
  pose proof (count_le (fun i => in_state "closed" i && without_marker i
                                  && closed_after (later - seven_days) i)
                       (fun i => in_state "closed" i && without_marker i
                                  && closed_after (earlier - seven_days) i) issues) as Hle.
  assert (Hsub : forall i,
             in_state "closed" i && without_marker i
             && closed_after (later - seven_days) i = true ->
             in_state "closed" i && without_marker i
             && closed_after (earlier - seven_days) i = true).
  { intros i H. apply andb_true_iff in H as [Hc Ha]. rewrite Hc. simpl.
    apply (closed_after_later (earlier - seven_days) (later - seven_days)); [lia|assumption]. }
  specialize (Hle Hsub).
  destruct (_ =? 0)%nat; unfold Qle; simpl; lia.
Qed.

Lemma velocity_decays_witness :
  (0 # 7 <= 1 # 7)%Q.
Proof.
  apply (velocity_decays (now first_run) (now second_run) sample_issues).
  - vm_compute. discriminate.
  - reflexivity.
  - reflexivity.
Defined.

(** X7. The velocity does not depend on the order in which the issues arrive. *)
Theorem velocity_order_independent (now : Z) (issues issues' : list issue) (v : Q)
    (Hperm : Permutation issues issues')
    (Hv : calculate_velocity now issues = Ok v) :
  calculate_velocity now issues' = Ok v.
Proof.
  rewrite calculate_velocity_find in *.
  destruct (find offending issues) eqn:E; [discriminate|].
  assert (E' : find offending issues' = None).
  { apply find_None_iff. intros x Hx.
    apply (proj1 (find_None_iff offending issues) E).
    apply (Permutation_in x (Permutation_sym Hperm) Hx). }
  rewrite E'. rewrite <- Hv.
  now rewrite !(count_Permutation _ issues issues' Hperm).
Qed.

Lemma velocity_order_independent_witness :
  calculate_velocity sample_now (rev sample_issues) = Ok (1 # 7)%Q.
Proof.
  apply (velocity_order_independent sample_now sample_issues (rev sample_issues)).
  - apply Permutation_rev.
  - reflexivity.
Defined.

(* ------------------------------------------------------------------ *)
(** ** Further properties: the phases *)

Lemma phase_status_values (task_titles : list string) (issues : list issue) :
  phase_status task_titles issues = "completed"
  \/ phase_status task_titles issues = "in_progress"
  \/ phase_status task_titles issues = "not_started".
Proof.
  unfold phase_status.
  destruct (_ && _); [now left|].
  destruct (0 <? _)%nat; [right; now left|].
  destruct (existsb _ _); [right; now left | right; now right].
Qed.

Lemma filter_length_le {A : Type} (p : A -> bool) (l : list A) :
  List.length (filter p l) <= List.length l.
Proof. rewrite length_filter_count. apply count_le_length. Qed.

Lemma phase_record_skeleton (issues : list issue) (entry : Z * list string)
    (phase_name : string) :
  int_getitem phase_names (fst entry) = Ok phase_name ->
  exists (status : string) (total completed : Z),
    phase_record issues entry
    = Ok [ ("phase", VInt (fst entry)); ("name", VStr phase_name);
           ("status", VStr status); ("tasks_total", VInt total);
           ("tasks_completed", VInt completed) ]
    /\ (status = "completed" \/ status = "in_progress" \/ status = "not_started")
    /\ (0 <= completed <= total)%Z
    /\ (total <= Z.of_nat (List.length issues))%Z.
Proof.
  intros Hname. unfold phase_record. rewrite Hname. cbn [bind].
  do 3 eexists. split; [reflexivity|].
  split; [apply phase_status_values|].
  pose proof (filter_length_le (fun i => state i =? "closed")
                (phase_issues (snd entry) issues)).
  pose proof (filter_length_le
                (fun i => existsb (fun t => contains (title i) t) (snd entry)) issues).
  unfold phase_issues in *. cbn [snd] in *. lia.
Qed.

(** X8. Whatever the issues, the resolver returns six records, numbered 1 to 6
    with the fixed names, each with the five keys in the same order, a
    status among the three texts, and counts with
    0 <= tasks_completed <= tasks_total <= number of issues. *)
Theorem phases_skeleton (issues : list issue) :
  exists phases : list pydict,
    get_phase_status issues = Ok phases
    /\ map (fun r => (dict_get r "phase", dict_get r "name")) phases
       = [ (Some (VInt 1), Some (VStr "Core Foundation"));
           (Some (VInt 2), Some (VStr "Testing Infrastructure"));
           (Some (VInt 3), Some (VStr "API & Integration"));
           (Some (VInt 4), Some (VStr "Developer Experience"));
           (Some (VInt 5), Some (VStr "Platform Integration"));
           (Some (VInt 6), Some (VStr "Production Readiness")) ]
    /\ Forall (fun r =>
                 keys r = phase_keys
                 /\ (exists status : string,
                       dict_get r "status" = Some (VStr status)
                       /\ (status = "completed" \/ status = "in_progress"
                           \/ status = "not_started"))
                 /\ exists total completed : Z,
                      dict_get r "tasks_total" = Some (VInt total)
                      /\ dict_get r "tasks_completed" = Some (VInt completed)
                      /\ (0 <= completed <= total)%Z
                      /\ (total <= Z.of_nat (List.length issues))%Z) phases.
Proof.
  unfold get_phase_status, phase_mapping. cbn [mapM].
  repeat match goal with
         | |- context [phase_record issues (?n, ?titles)] =>
             let s := fresh "status" in
             let t := fresh "total" in
             let c := fresh "completed" in
             let E := fresh "E" in
             let Hs := fresh "Hs" in
             let Hc := fresh "Hc" in
             let Ht := fresh "Ht" in
             destruct (phase_record_skeleton issues (n, titles) _ eq_refl)
               as (s & t & c & E & Hs & Hc & Ht);
             cbn [fst] in E; rewrite E; clear E; cbn [bind]
         end.
  eexists. split; [reflexivity|]. split; [reflexivity|].
  repeat (constructor;
          [split; [reflexivity|]; split;
           [eexists; split; [reflexivity | assumption]
           |do 2 eexists; repeat split; try reflexivity; lia]|]).
  constructor.
Qed.

Lemma mapM_In {A B : Type} (f : A -> outcome B) (l : list A) (ys : list B) (x : A) :
  mapM f l = Ok ys -> In x l -> exists y, f x = Ok y /\ In y ys.
Proof.
  revert ys. induction l as [|a rest IH]; intros ys H Hin; [contradiction|].
  simpl in H. apply bind_Ok in H as [y [Hy H]]. apply bind_Ok in H as [ys' [Hys H]].
  injection H as <-. destruct Hin as [<-|Hin].
  - exists y. split; [assumption | now left].
  - destruct (IH ys' Hys Hin) as [y' [Hy' Hin']]. exists y'. split; [assumption | now right].
Qed.

Lemma matches_existsb (task_titles : list string) (i : issue) :
  matches task_titles i ->
  existsb (fun t => contains (title i) t) task_titles = true.
Proof.
  intros [t [Ht Ho]]. apply existsb_exists. exists t. split; [assumption|].
  now apply contains_occurs.
Qed.

(** X9. The resolver does not look at the pull-request marker: a pull request
    whose title contains a task title of a phase is counted in tasks_total
    of that phase, while total_tasks leaves it out. *)
Theorem phases_count_pull_requests (issues : list issue) (pr : issue)
    (entry : Z * list string) (url : string)
    (Hentry : In entry phase_mapping)
    (Hpr : pull_request pr = Some url)
    (Hmatch : matches (snd entry) pr) :
  exists (phases phases' : list pydict) (r r' : pydict),
    get_phase_status issues = Ok phases
    /\ get_phase_status (pr :: issues) = Ok phases'
    /\ In r phases /\ In r' phases'
    /\ dict_get r "phase" = Some (VInt (fst entry))
    /\ dict_get r' "phase" = Some (VInt (fst entry))
    /\ tasks "tasks_total" r' = option_map Z.succ (tasks "tasks_total" r)
    /\ tasks "total_tasks" (get_project_metrics (pr :: issues))
       = tasks "total_tasks" (get_project_metrics issues).
Proof.
  destruct (get_phase_status_total issues) as [phases Hp].
  destruct (get_phase_status_total (pr :: issues)) as [phases' Hp'].
  destruct (mapM_In _ _ _ entry Hp Hentry) as (r & Hr & Hin).
  destruct (mapM_In _ _ _ entry Hp' Hentry) as (r' & Hr' & Hin').
  exists phases, phases', r, r'.
  repeat (split; [assumption|]).
  destruct (phase_record_rule issues entry Hentry) as (r0 & Hr0 & _ & Hn & Ht & _).
  destruct (phase_record_rule (pr :: issues) entry Hentry) as (r0' & Hr0' & _ & Hn' & Ht' & _).
  rewrite Hr in Hr0. injection Hr0 as <-.
  rewrite Hr' in Hr0'. injection Hr0' as <-.
  split; [assumption|]. split; [assumption|]. split.
  - unfold tasks. rewrite Ht, Ht'. unfold phase_issues. cbn [filter].
    rewrite (matches_existsb _ _ Hmatch). cbn [List.length option_map].
    f_equal. lia.
  - destruct (tasks_metrics issues) as (H1 & _).
    destruct (tasks_metrics (pr :: issues)) as (H2 & _). cbv zeta in *.
    rewrite H1, H2. cbn [count]. unfold without_marker at 1. rewrite Hpr.
    reflexivity.
Qed.

Lemma phases_count_pull_requests_witness :
  let pr := {| title := "Add Query Endpoints"; state := "open"; labels := [];
               pull_request := Some "https://api.github.com/repos/owner/TopicTracker/pulls/7";
               closed_at := Null |} in
  tasks "total_tasks" (get_project_metrics (pr :: sample_issues))
  = tasks "total_tasks" (get_project_metrics sample_issues).
Proof.
  intros pr.
  destruct (phases_count_pull_requests sample_issues pr
              (3%Z, ["Query Endpoints"; "Advanced Queries"; "ASP.NET Core Integration"])
              "https://api.github.com/repos/owner/TopicTracker/pulls/7")
    as (phases & phases' & r & r' & _ & _ & _ & _ & _ & _ & _ & H).
  - right; right; left; reflexivity.
  - reflexivity.
  - exists "Query Endpoints". split; [now left|]. exists "Add ", "". reflexivity.
  - exact H.
Defined.

Lemma filter_Permutation {A : Type} (p : A -> bool) (l l' : list A) :
  Permutation l l' -> Permutation (filter p l) (filter p l').
Proof.
  induction 1 as [|x l l' H IH|x y l|l l' l'' H1 IH1 H2 IH2]; simpl.
  - constructor.
  - destruct (p x); [now constructor | assumption].
  - destruct (p x), (p y); try apply Permutation_refl. apply perm_swap.
  - now apply (Permutation_trans IH1).
Qed.

Lemma existsb_Permutation {A : Type} (p : A -> bool) (l l' : list A) :
  Permutation l l' -> existsb p l = existsb p l'.
Proof.
  intros H. destruct (existsb p l') eqn:E.
  - apply existsb_exists in E as [x [Hin Hx]]. apply existsb_exists.
    exists x. split; [|assumption]. now apply (Permutation_in x (Permutation_sym H)).
  - destruct (existsb p l) eqn:E'; [|reflexivity].
    apply existsb_exists in E' as [x [Hin Hx]].
    assert (existsb p l' = true)
      by (apply existsb_exists; exists x; split;
          [now apply (Permutation_in x H) | assumption]).
    congruence.
Qed.

Lemma mapM_ext {A B : Type} (f g : A -> outcome B) (l : list A) :
  (forall x, f x = g x) -> mapM f l = mapM g l.
Proof.
  intros H. induction l as [|x rest IH]; simpl; [reflexivity|]. now rewrite H, IH.
Qed.

(** X10. The phase records do not depend on the order in which the issues
    arrive. *)
Theorem phases_order_independent (issues issues' : list issue)
    (Hperm : Permutation issues issues') :
  get_phase_status issues = get_phase_status issues'.
Proof.
  unfold get_phase_status. apply mapM_ext. intros entry.
  pose proof (filter_Permutation
                (fun i => existsb (fun t => contains (title i) t) (snd entry))
                _ _ Hperm) as Hphase.
  fold (phase_issues (snd entry) issues) in Hphase.
  fold (phase_issues (snd entry) issues') in Hphase.
  pose proof (filter_Permutation (fun i => state i =? "closed") _ _ Hphase) as Hclosed.
  unfold phase_record, phase_status.
  rewrite (Permutation_length Hphase), (Permutation_length Hclosed).
  now rewrite (existsb_Permutation _ _ _ Hphase).
Qed.

Lemma phases_order_independent_witness :
  get_phase_status sample_issues = get_phase_status (rev sample_issues).
Proof.
  apply (phases_order_independent sample_issues (rev sample_issues)).
  apply Permutation_rev.
Defined.

Lemma mapM_map {A B C : Type} (f : A -> outcome B) (g : B -> C) (h : A -> C)
    (l : list A) (ys : list B) :
  (forall x y, f x = Ok y -> g y = h x) -> mapM f l = Ok ys -> map g ys = map h l.
Proof.
  intros H. revert ys. induction l as [|a rest IH]; intros ys Hm; simpl in Hm.
  - now injection Hm as <-.
  - apply bind_Ok in Hm as [y [Hy Hm]]. apply bind_Ok in Hm as [ys' [Hys Hm]].
    injection Hm as <-. simpl. now rewrite (H a y Hy), (IH ys' Hys).
Qed.

Lemma phases_numbered (issues : list issue) (phases : list pydict) :
  get_phase_status issues = Ok phases -> map number phases = [1; 2; 3; 4; 5; 6]%Z.
Proof.
  intros H.
  assert (Hnum : forall entry record,
             phase_record issues entry = Ok record -> number record = fst entry).
  { intros entry record Hr. unfold phase_record in Hr.
    apply bind_Ok in Hr as [phase_name [_ Hr]]. now injection Hr as <-. }
  now rewrite (mapM_map _ number fst _ _ Hnum H).
Qed.

Lemma find_least {A : Type} (key : A -> Z) (p : A -> bool) (l : list A) (x : A) :
  StronglySorted Z.lt (map key l) -> find p l = Some x ->
  forall y, In y l -> p y = true -> (key x <= key y)%Z.
Proof.
  induction l as [|a rest IH]; intros Hs Hf y Hy Hp; [contradiction|].
  simpl in Hs. apply StronglySorted_inv in Hs as [Hs Hall].
  simpl in Hf. destruct (p a) eqn:Ha.
  - injection Hf as <-. destruct Hy as [<-|Hy]; [lia|].
    rewrite Forall_forall in Hall.
    specialize (Hall (key y) (in_map key rest y Hy)). lia.
  - destruct Hy as [<-|Hy]; [congruence|]. now apply IH.
Qed.

(** X11. After a completed run in which some phase is in progress,
    current_status.phase is the lowest phase number among the phases in
    progress, whatever the status of the phases before and after it. *)
Theorem current_phase_is_lowest (env : environment) (file : file_state) (w : world)
    (Hrun : run env file = (w, Ok tt)) :
  exists (doc' : value) (issues : list issue) (phases : list pydict),
    disk w = Document doc'
    /\ fetch env = FetchReturns (IssueArray issues)
    /\ get_phase_status issues = Ok phases
    /\ forall r, In r phases -> dict_get r "status" = Some (VStr "in_progress") ->
         exists lowest,
           In lowest phases
           /\ dict_get lowest "status" = Some (VStr "in_progress")
           /\ lookup ["current_status"; "phase"] doc' = Some (VInt (number lowest))
           /\ (number lowest <= number r)%Z.
Proof.
  apply run_Ok_merged in Hrun
    as (issues & velocity & phases & p & cs & m & vel & p'
        & -> & Hf & _ & _ & Hp & _ & _ & _ & _ & Hd & Hcs' & _ & _ & _).
  exists (VDict p'), issues, phases.
  repeat (split; [assumption|]).
  intros r Hin Hr.
  destruct (find says_in_progress phases) as [lowest|] eqn:E.
  - destruct (find_some _ _ E) as [Hl Hs].
    exists lowest. split; [assumption|].
    split; [now apply says_in_progress_true|]. split.
    + cbn [lookup]. rewrite Hcs'. unfold merged_status, current_phase_fields.
      rewrite E. dict_simpl.
      pose proof (get_phase_status_shaped _ _ Hp) as Hshape.
      rewrite Forall_forall in Hshape.
      destruct (Hshape lowest Hl) as (n & nm & st & t & c & ->). reflexivity.
    + apply (find_least number says_in_progress phases lowest); try assumption.
      * rewrite (phases_numbered _ _ Hp). repeat constructor; lia.
      * now apply says_in_progress_true.
  - apply find_None_iff with (x := r) in E; [|assumption].
    apply says_in_progress_true in Hr. congruence.
Qed.

Lemma current_phase_is_lowest_witness :
  exists doc' : value,
    disk (fst (run sample_environment (Document sample_document))) = Document doc'
    /\ lookup ["current_status"; "phase"] doc' = Some (VInt 1).
Proof.
  destruct (current_phase_is_lowest sample_environment (Document sample_document)
              (fst (run sample_environment (Document sample_document))) eq_refl)
    as (doc' & issues & phases & Hd & Hf & Hp & Hlow).
  exists doc'. split; [exact Hd|].
  injection Hf as <-. vm_compute in Hp. injection Hp as <-.
  destruct (Hlow _ (or_introl eq_refl) eq_refl) as (lowest & Hin & Hs & Hl & _).
  rewrite Hl. do 2 f_equal.
  destruct Hin as [<-|[<-|[<-|[<-|[<-|[<-|[]]]]]]]; try reflexivity; discriminate Hs.
Defined.

(* ------------------------------------------------------------------ *)
(** ** Further properties: when a run completes, and how it fails *)

Lemma stamped_when_defined (now : Z) (issues : list issue) (v : Q) :
  calculate_velocity now issues = Ok v -> stamped issues.
Proof.
  rewrite calculate_velocity_find. destruct (find offending issues) eqn:E; [discriminate|].
  intros _ i Hin Hc. pose proof (find_none _ _ E i Hin) as Hoff.
  unfold offending in Hoff. rewrite Hc in Hoff. simpl in Hoff.
  destruct (closed_at i) as [| |t]; try discriminate. now exists t.
Qed.

(** X12. A run completes exactly when the file holds a document with a
    current_status mapping and a metrics mapping that has a velocity
    mapping, the tracker answers with an array of issues whose closed issues
    without a pull-request marker have a readable closing instant, and the
    file can be written.  No other key has to exist beforehand. *)
Theorem run_completes_exactly_when (env : environment) (file : file_state) :
  (exists w, run env file = (w, Ok tt))
  <-> exists (doc : value) (issues : list issue),
        file = Document doc /\ shaped doc
        /\ fetch env = FetchReturns (IssueArray issues) /\ stamped issues
        /\ write env = WriteSucceeds.
Proof.
  split.
  - intros [w Hrun].
    apply run_Ok_merged in Hrun
      as (issues & velocity & phases & p & cs & m & vel & p'
          & -> & Hf & Hw & Hv & _ & Hcs & Hm & Hvel & _).
    exists (VDict p), issues. split; [reflexivity|]. split.
    + exists cs, vel. cbn [lookup]. now rewrite Hcs, Hm, Hvel.
    + split; [assumption|]. split; [|assumption].
      now apply (stamped_when_defined (now env) issues velocity).
  - intros (doc & issues & -> & Hshape & Hf & Hst & Hw).
    now apply (run_succeeds env doc issues).
Qed.

(** X13. The merge names the first key it misses: a document without
    current_status raises KeyError on it, one with it but without metrics
    raises KeyError on metrics, one with both but without metrics.velocity
    raises KeyError on velocity; an empty file (no mapping at all) raises
    TypeError. *)
Theorem merge_missing_key (stamp : string) (issues : list issue) (velocity : Q)
    (phases : list pydict) (p : pydict) :
  (dict_get p "current_status" = None ->
   merge stamp (get_project_metrics issues) velocity phases (VDict p)
   = Raise (KeyError "current_status"))
  /\ (forall cs, dict_get p "current_status" = Some (VDict cs) ->
        dict_get p "metrics" = None ->
        merge stamp (get_project_metrics issues) velocity phases (VDict p)
        = Raise (KeyError "metrics"))
  /\ (forall cs m, dict_get p "current_status" = Some (VDict cs) ->
        dict_get p "metrics" = Some (VDict m) ->
        dict_get m "velocity" = None ->
        merge stamp (get_project_metrics issues) velocity phases (VDict p)
        = Raise (KeyError "velocity"))
  /\ merge stamp (get_project_metrics issues) velocity phases VNone = Raise TypeError.
Proof.
  split; [|split; [|split]].
  - intros H. unfold merge, within. cbn [getitem]. now rewrite H.
  - intros cs Hcs H. unfold merge.
    rewrite (within_set p "current_status" _ (VDict cs)
               (VDict (dict_set cs "last_updated" (VStr stamp))))
      by (assumption || reflexivity).
    cbn [bind]. unfold within at 1. cbn [getitem]. dict_simpl. now rewrite H.
  - intros cs m Hcs Hm H. unfold merge.
    rewrite (within_set p "current_status" _ (VDict cs)
               (VDict (dict_set cs "last_updated" (VStr stamp))))
      by (assumption || reflexivity).
    cbn [bind].
    rewrite (within_set _ "metrics" _ (VDict m)
               (VDict (dict_update m (get_project_metrics issues))));
      [|dict_simpl; assumption|reflexivity].
    cbn [bind]. unfold within at 1. cbn [getitem]. dict_simpl. cbn [bind].
    unfold within at 1. cbn [getitem]. rewrite metrics_update. cbn [dict_get].
    dict_simpl. cbn [String.eqb Ascii.eqb Bool.eqb]. now rewrite H.
  - reflexivity.
Qed.

Lemma merge_missing_key_witness :
  merge "2023-11-14T22:13:20+00:00" (get_project_metrics sample_issues) (1 # 7)%Q []
        (VDict [("project", VStr "TopicTracker"); ("current_status", VDict [])])
  = Raise (KeyError "metrics").
Proof.
  exact (proj1 (proj2 (merge_missing_key _ sample_issues _ _
                         [("project", VStr "TopicTracker"); ("current_status", VDict [])]))
           [] eq_refl eq_refl).
Defined.

Lemma run_completes_exactly_when_witness :
  exists w, run sample_environment (Document sample_document) = (w, Ok tt).
Proof.
  apply (proj2 (run_completes_exactly_when sample_environment (Document sample_document))).
  exists sample_document, sample_issues.
  split; [reflexivity|]. split.
  - do 2 eexists. split; reflexivity.
  - split; [reflexivity|]. split; [|reflexivity].
    intros i [<-|[<-|[]]] H; [eexists; reflexivity | discriminate H].
Defined.

(* ------------------------------------------------------------------ *)
(** ** Further properties: the layout of the stored document *)

Lemma lacking_one (d : pydict) (k : string) :
  lacking d [k] = if has_key d k then [] else [k].
Proof. unfold lacking. simpl. now destruct (has_key d k). Qed.

Lemma keys_set (d : pydict) (k : string) (v : value) :
  keys (dict_set d k v) = (keys d ++ lacking d [k])%list.
Proof.
  rewrite lacking_one. unfold has_key.
  induction d as [|[k0 v0] rest IH]; simpl; [reflexivity|].
  destruct (k0 =? k) eqn:E; simpl.
  - now rewrite app_nil_r.
  - rewrite IH. now destruct (dict_get rest k).
Qed.

Lemma keys_set_present (d : pydict) (k : string) (v old : value) :
  dict_get d k = Some old -> keys (dict_set d k v) = keys d.
Proof.
  intros H. rewrite keys_set, lacking_one. unfold has_key. rewrite H.
  apply app_nil_r.
Qed.

Lemma has_key_ext (d d' : pydict) (k : string) :
  keys d = keys d' -> has_key d k = has_key d' k.
Proof.
  unfold has_key. revert d'. induction d as [|[k0 v0] rest IH]; intros [|[k1 v1] rest'] H;
    try discriminate; [reflexivity|].
  simpl in H. injection H as -> H. simpl.
  destruct (k1 =? k); [reflexivity|]. now apply IH.
Qed.

Lemma lacking_ext (d d' : pydict) (wanted : list string) :
  keys d = keys d' -> lacking d wanted = lacking d' wanted.
Proof.
  intros H. unfold lacking. apply filter_ext. intros k. now rewrite (has_key_ext d d' k H).
Qed.

Lemma has_key_set_other (d : pydict) (k : string) (v : value) (k' : string) :
  k <> k' -> has_key (dict_set d k v) k' = has_key d k'.
Proof. intros N. unfold has_key. now rewrite dict_get_set_neq. Qed.

(** Updating keeps the keys in place and appends the new ones in the order
    of the update. *)
Lemma keys_update (other d : pydict) :
  NoDup (keys other) ->
  keys (dict_update d other) = (keys d ++ lacking d (keys other))%list.
Proof.
  revert d. induction other as [|[k v] rest IH]; intros d Hnd.
  - simpl. now rewrite app_nil_r.
  - simpl in Hnd. apply NoDup_cons_iff in Hnd as [Hk Hnd].
    rewrite dict_update_cons, IH, keys_set by assumption.
    rewrite <- app_assoc. f_equal.
    change (keys ((k, v) :: rest)) with (k :: keys rest).
    assert (Hsplit : lacking d (k :: keys rest)
                     = (lacking d [k] ++ lacking d (keys rest))%list)
      by (unfold lacking; simpl; now destruct (negb (has_key d k))).
    rewrite Hsplit. f_equal. unfold lacking. apply filter_ext_in. intros k' Hin.
    rewrite has_key_set_other; [reflexivity|]. intros ->. contradiction.
Qed.

Lemma within_keys (d : pydict) (k : string) (f : value -> outcome value) (o' : value) :
  within (VDict d) k f = Ok o' -> exists d', o' = VDict d' /\ keys d' = keys d.
Proof.
  intros H. apply within_Ok in H as (d0 & inner & inner' & E & Hd & _ & ->).
  injection E as <-. eexists. split; [reflexivity|]. now apply (keys_set_present d k _ inner).
Qed.

Lemma determine_current_phase_keys (phases : list pydict) (d : pydict) (o' : value) :
  determine_current_phase phases (VDict d) = Ok o' ->
  exists d', o' = VDict d' /\ keys d' = keys d.
Proof.
  induction phases as [|phase rest IH]; simpl; intros H.
  - injection H as <-. now exists d.
  - apply bind_Ok in H as [status [_ H]].
    destruct (eq_str status "in_progress"); [|now apply IH].
    apply bind_Ok in H as [n [_ H]]. apply bind_Ok in H as [o1 [H1 H]].
    apply bind_Ok in H as [nm [_ H]].
    apply within_keys in H1 as (d1 & -> & K1).
    apply within_keys in H as (d2 & -> & K2).
    exists d2. split; [reflexivity | congruence].
Qed.

Lemma update_health_keys (d : pydict) (o' : value) :
  update_health (VDict d) = Ok o' -> exists d', o' = VDict d' /\ keys d' = keys d.
Proof.
  unfold update_health. intros H.
  apply bind_Ok in H as [m [_ H]]. apply bind_Ok in H as [b [_ H]].
  apply bind_Ok in H as [red [_ H]].
  destruct red; [now apply within_keys in H|].
  apply bind_Ok in H as [m' [_ H]]. apply bind_Ok in H as [b' [_ H]].
  apply bind_Ok in H as [yellow [_ H]].
  destruct yellow; now apply within_keys in H.
Qed.

(** The merge leaves the top-level keys where they are and appends phases
    when the document had none. *)
Lemma merge_keys (stamp : string) (counters : pydict) (velocity : Q)
    (phases : list pydict) (p p' : pydict) :
  merge stamp counters velocity phases (VDict p) = Ok (VDict p') ->
  keys p' = (keys p ++ lacking p ["phases"])%list.
Proof.
  unfold merge. intros H.
  apply bind_Ok in H as [o1 [H1 H]]. apply within_keys in H1 as (p1 & -> & K1).
  apply bind_Ok in H as [o2 [H2 H]]. apply within_keys in H2 as (p2 & -> & K2).
  apply bind_Ok in H as [o3 [H3 H]]. apply within_keys in H3 as (p3 & -> & K3).
  apply bind_Ok in H as [o4 [H4 H]]. cbn [setitem] in H4. injection H4 as <-.
  apply bind_Ok in H as [o5 [H5 H]].
  apply determine_current_phase_keys in H5 as (p5 & -> & K5).
  apply update_health_keys in H as (p6 & E & K6). injection E as <-.
  rewrite K6, K5, keys_set.
  assert (K : keys p3 = keys p) by congruence.
  now rewrite K, (lacking_ext p3 p _ K).
Qed.

Lemma says_in_progress_find (phases : list pydict) :
  existsb says_in_progress phases
  = match find says_in_progress phases with Some _ => true | None => false end.
Proof.
  induction phases as [|r rest IH]; simpl; [reflexivity|].
  now destruct (says_in_progress r).
Qed.

(** X14. A completed run keeps every key of the document, of current_status and
    of metrics, in its place; what it adds goes after them: phases at the top
    level, the missing counters in metrics in the order total, completed,
    in progress, blocked, and in current_status the missing ones of
    last_updated, phase, phase_name (these two only when a phase is in
    progress) and health, in that order. *)
Theorem run_keeps_key_order (env : environment) (file : file_state) (w : world)
    (Hrun : run env file = (w, Ok tt)) :
  exists (issues : list issue) (phases : list pydict) (p p' cs cs' m m' : pydict),
    file = Document (VDict p)
    /\ disk w = Document (VDict p')
    /\ fetch env = FetchReturns (IssueArray issues)
    /\ get_phase_status issues = Ok phases
    /\ dict_get p "current_status" = Some (VDict cs)
    /\ dict_get p' "current_status" = Some (VDict cs')
    /\ dict_get p "metrics" = Some (VDict m)
    /\ dict_get p' "metrics" = Some (VDict m')
    /\ keys p' = (keys p ++ lacking p ["phases"])%list
    /\ keys m' = (keys m ++ lacking m counter_keys)%list
    /\ keys cs'
       = (keys cs
          ++ lacking cs (if existsb says_in_progress phases
                         then ["last_updated"; "phase"; "phase_name"; "health"]
                         else ["last_updated"; "health"]))%list.
Proof.
  apply run_Ok_merged in Hrun
    as (issues & velocity & phases & p & cs & m & vel & p'
        & -> & Hf & _ & _ & Hp & Hcs & Hm & Hvel & Hmerge & Hd & Hcs' & Hm' & _ & _).
  exists issues, phases, p, p', cs,
         (merged_status (stamp env) phases (blocked_count issues) cs), m,
         (merged_metrics (get_project_metrics issues) velocity m vel).
  repeat (split; [first [assumption | reflexivity]|]).
  split; [now apply (merge_keys _ _ _ _ _ _ Hmerge)|]. split.
  - unfold merged_metrics.
    rewrite (keys_set_present _ "velocity" _ (VDict vel))
      by (now rewrite metrics_update).
    rewrite keys_update; [reflexivity|].
    unfold get_project_metrics, keys. cbn [map fst].
    repeat constructor; simpl; intuition discriminate.
  - rewrite says_in_progress_find. unfold merged_status, current_phase_fields.
    destruct (find says_in_progress phases) as [r|].
    + change (dict_set (dict_set (dict_set (dict_set cs "last_updated" (VStr (stamp env)))
                                           "phase" (field r "phase"))
                                 "phase_name" (field r "name"))
                       "health" (VStr (health_of (blocked_count issues))))
        with (dict_update cs [ ("last_updated", VStr (stamp env));
                               ("phase", field r "phase");
                               ("phase_name", field r "name");
                               ("health", VStr (health_of (blocked_count issues))) ]).
      rewrite keys_update; [reflexivity|].
      unfold keys. cbn [map fst]. repeat constructor; simpl; intuition discriminate.
    + change (dict_set (dict_set cs "last_updated" (VStr (stamp env)))
                       "health" (VStr (health_of (blocked_count issues))))
        with (dict_update cs [ ("last_updated", VStr (stamp env));
                               ("health", VStr (health_of (blocked_count issues))) ]).
      rewrite keys_update; [reflexivity|].
      unfold keys. cbn [map fst]. repeat constructor; simpl; intuition discriminate.
Qed.

Lemma run_keeps_key_order_witness :
  exists p' : pydict,
    disk (fst (run sample_environment (Document sample_document))) = Document (VDict p')
    /\ keys p' = ["project"; "current_status"; "metrics"; "phases"].
Proof.
  destruct (run_keeps_key_order sample_environment (Document sample_document)
              (fst (run sample_environment (Document sample_document))) eq_refl)
    as (issues & phases & p & p' & cs & cs' & m & m'
        & Hfile & Hd & _ & _ & _ & _ & _ & _ & Hkeys & _).
  exists p'. split; [exact Hd|]. injection Hfile as <-. exact Hkeys.
Defined.

(** X15. What a completed run stores at the places it writes (the phases, the
    four counters, velocity.current, last_updated and health) does not
    depend on what the existing document held there, or anywhere else. *)
Theorem stored_values_ignore_old (env : environment) (old1 old2 : value) (w1 w2 : world)
    (H1 : run env (Document old1) = (w1, Ok tt))
    (H2 : run env (Document old2) = (w2, Ok tt)) :
  forall path, In path rewritten_paths -> on_disk path w1 = on_disk path w2.
Proof.
  apply run_Ok_merged in H1
    as (issues & velocity & phases & p & cs & m & vel & p'
        & _ & Hf & _ & Hv & Hp & _ & _ & _ & _ & Hd & Hcs' & Hm' & Hph' & _).
  apply run_Ok_merged in H2
    as (issues2 & velocity2 & phases2 & p2 & cs2 & m2 & vel2 & p2'
        & _ & Hf2 & _ & Hv2 & Hp2 & _ & _ & _ & _ & Hd2 & Hcs2' & Hm2' & Hph2' & _).
  rewrite Hf in Hf2. injection Hf2 as <-.
  rewrite Hv in Hv2. injection Hv2 as <-.
  rewrite Hp in Hp2. injection Hp2 as <-.
  intros path Hin. unfold on_disk. rewrite Hd, Hd2.
  unfold rewritten_paths in Hin. simpl in Hin.
  repeat (destruct Hin as [<-|Hin];
          [cbn [lookup];
           rewrite ?Hcs', ?Hcs2', ?Hm', ?Hm2', ?Hph', ?Hph2', ?merged_metrics_get;
           unfold merged_status, current_phase_fields;
           cbn [String.eqb Ascii.eqb Bool.eqb];
           try (destruct (find says_in_progress phases));
           dict_simpl; rewrite ?blocked_tasks_metrics; reflexivity|]).
  contradiction.
Qed.

Lemma stored_values_ignore_old_witness :
  let other := VDict [ ("current_status", VDict [("health", VStr "red")]);
                       ("metrics", VDict [ ("blocked_tasks", VInt 9);
                                           ("velocity", VDict []) ]);
                       ("phases", VStr "none") ] in
  on_disk ["current_status"; "health"]
          (fst (run sample_environment (Document other)))
  = Some (VStr "yellow").
Proof.
  intros other.
  rewrite <- (stored_values_ignore_old sample_environment sample_document other
                (fst (run sample_environment (Document sample_document)))
                (fst (run sample_environment (Document other)))
                eq_refl eq_refl ["current_status"; "health"]).
  - reflexivity.
  - do 7 right. now left.
Defined.

(* ------------------------------------------------------------------ *)
(** ** Further properties: what a run does, in order *)

(** X16. The actions of a run come in one order and stop at the first
    failure: nothing when the file cannot be opened; the read alone when its
    bytes do not decode or its text does not parse; the read and one request
    when any later step before the write fails; the read, the request and the
    open for writing when the dump fails; and for a completed run the read,
    the request, the open, the dump of the stored document and the two
    printed lines, which show the completed and total counters and the
    velocity rendered to two decimals.  The request is sent exactly when the
    file could be read, and nothing is printed by a run that fails. *)
Theorem run_actions_in_order (env : environment) (file : file_state) (w : world)
    (r : outcome unit) (Hrun : run env file = (w, r)) :
  (file = Missing /\ trace w = [] /\ r = Raise OSError)
  \/ (file = Undecodable /\ trace w = [OpenedForRead] /\ r = Raise UnicodeDecodeError)
  \/ (file = Unparsable /\ trace w = [OpenedForRead] /\ r = Raise YAMLError)
  \/ (loads file /\ (exists e, r = Raise e) /\ trace w = [OpenedForRead; HttpGet])
  \/ (loads file
      /\ (exists e flushed, r = Raise e /\ write env = DumpRaises e flushed)
      /\ trace w = [OpenedForRead; HttpGet; OpenedForWrite])
  \/ (loads file /\ r = Ok tt
      /\ exists (doc' : value) (issues : list issue) (velocity : Q) (completed total : Z),
           fetch env = FetchReturns (IssueArray issues)
           /\ calculate_velocity (now env) issues = Ok velocity
           /\ tasks "completed_tasks" (get_project_metrics issues) = Some completed
           /\ tasks "total_tasks" (get_project_metrics issues) = Some total
           /\ disk w = Document doc'
           /\ trace w = [ OpenedForRead; HttpGet; OpenedForWrite; Dumped doc';
                          PrintedProgress (VInt completed) (VInt total);
                          PrintedVelocity (format_2f velocity) ]).
Proof.
  destruct r as [[]|e].
  - do 5 right.
    apply run_Ok in Hrun
      as (doc & issues & velocity & phases & doc' & -> & Hf & Hv & _ & _ & _ & Hd & Ht).
    split; [right; now exists doc|]. split; [reflexivity|].
    destruct (tasks_metrics issues) as (Htot & Hcom & _). cbv zeta in *.
    exists doc', issues, velocity. do 2 eexists.
    split; [assumption|]. split; [assumption|].
    split; [exact Hcom|]. split; [exact Htot|]. split; [assumption|].
    rewrite Ht, get_project_metrics_counts. reflexivity.
  - destruct env as [f n s wr].
    unfold run, update_progress_file, io_bind, load_progress, get_issues, pure,
      dump_progress, io_bind, emit, set_disk in Hrun.
    cbn [disk trace fetch now stamp write fst app] in *.
    assert (L1 : loads Emptied) by now left.
    assert (L2 : forall doc, loads (Document doc)) by (intros doc; right; now exists doc).
    destruct file as [| | | |doc]; try destruct f as [e0|[issues|msg]];
      cbn [iterate] in Hrun;
      repeat match type of Hrun with
             | context [calculate_velocity ?a ?b] =>
                 destruct (calculate_velocity a b) as [velocity|]
             | context [get_phase_status ?a] =>
                 destruct (get_phase_status a) as [phases|]
             | context [merge ?a ?b ?c ?d ?e] =>
                 destruct (merge a b c d e) as [doc'|]
             | context [match wr with WriteSucceeds => _ | _ => _ end] =>
                 destruct wr as [| |e1 flushed]
             end;
      cbn in Hrun; try discriminate Hrun; injection Hrun as <- <-; cbn [trace];
      first [ left; repeat split; reflexivity
            | right; left; repeat split; reflexivity
            | right; right; left; repeat split; reflexivity
            | right; right; right; left;
              split; [auto|]; split; [eexists; reflexivity | reflexivity]
            | right; right; right; right; left;
              split; [auto|]; split; [do 2 eexists; split; reflexivity | reflexivity] ].
Qed.

Lemma run_actions_in_order_witness :
  trace (fst (run interrupted_run (Document sample_document)))
  = [OpenedForRead; HttpGet; OpenedForWrite].
Proof.
  destruct (run_actions_in_order interrupted_run (Document sample_document)
              (fst (run interrupted_run (Document sample_document)))
              (Raise OSError) eq_refl)
    as [(H & _)|[(H & _)|[(H & _)|[(_ & _ & H)|[(_ & _ & H)|(_ & H & _)]]]]];
    try discriminate H; exact H.
Defined.

(* ------------------------------------------------------------------ *)
(** ** Further properties: the stored velocity *)

Lemma round2_close (x : Q) : (Qabs (round2 x - x) <= 1 # 200)%Q.
Proof.
  apply Qabs_Qle_condition.
  destruct x as [n d]. unfold round2. cbn [Qnum Qden].
  pose proof (Z.div_mod (n * 100) (Zpos d) ltac:(discriminate)) as Hdm.
  pose proof (Z.mod_pos_bound (n * 100) (Zpos d) ltac:(reflexivity)) as Hb.
  set (lo := (n * 100 / Zpos d)%Z) in *.
  set (r := ((n * 100) mod Zpos d)%Z) in *.
  assert (Hup : forall k : Z,
             (k = lo /\ 2 * r <= Zpos d \/ k = lo + 1 /\ Zpos d <= 2 * r)%Z ->
             (- (1 # 200) <= (k # 100) - (n # d) <= 1 # 200)%Q).
  { intros k Hk. unfold Qle, Qminus, Qplus, Qopp. cbn [Qnum Qden].
    rewrite ?Pos2Z.inj_mul. split; nia. }
  apply Hup.
  destruct (Z.compare_spec (2 * r) (Zpos d)); [destruct (Z.odd lo)| |]; lia.
Qed.

Lemma round2_hundredths (k : Z) : round2 (k # 100) = (k # 100)%Q.
Proof.
  unfold round2. cbn [Qnum Qden].
  rewrite Z.div_mul by discriminate. rewrite Z.mod_mul by discriminate.
  reflexivity.
Qed.

Lemma round2_nonneg (x : Q) : (0 <= x)%Q -> (0 <= round2 x)%Q.
Proof.
  destruct x as [n d]. unfold Qle, round2. cbn [Qnum Qden]. intros H.
  assert (0 <= n * 100 / Zpos d)%Z by (apply Z.div_pos; lia).
  destruct (match (2 * _ ?= _)%Z with Lt => false | Gt => true | Eq => _ end); lia.
Qed.

(** X17. After a completed run metrics.velocity.current is a whole number of
    hundredths, not negative, within 0.005 of the velocity computed in the
    run, and rounding it again gives it back. *)
Theorem stored_velocity_rounded (env : environment) (file : file_state) (w : world)
    (Hrun : run env file = (w, Ok tt)) :
  exists (doc' : value) (issues : list issue) (velocity current : Q),
    disk w = Document doc'
    /\ fetch env = FetchReturns (IssueArray issues)
    /\ calculate_velocity (now env) issues = Ok velocity
    /\ lookup ["metrics"; "velocity"; "current"] doc' = Some (VFloat current)
    /\ Qden current = 100%positive
    /\ (0 <= current)%Q
    /\ (Qabs (current - velocity) <= 1 # 200)%Q
    /\ round2 current = current.
Proof.
  apply run_Ok_merged in Hrun
    as (issues & velocity & phases & p & cs & m & vel & p'
        & _ & Hf & _ & Hv & _ & _ & _ & _ & _ & Hd & _ & Hm' & _ & _).
  exists (VDict p'), issues, velocity, (round2 velocity).
  repeat (split; [assumption|]).
  split; [cbn [lookup]; rewrite Hm', merged_metrics_get; cbn; now rewrite dict_get_set_eq|].
  split; [reflexivity|]. split.
  - apply round2_nonneg.
    rewrite calculate_velocity_find in Hv.
    destruct (find offending issues); [discriminate|]. injection Hv as <-.
    destruct (_ =? 0)%nat; unfold Qle; simpl; lia.
  - split; [apply round2_close|].
    unfold round2 at 2 3. apply round2_hundredths.
Qed.

Lemma stored_velocity_rounded_witness :
  on_disk ["metrics"; "velocity"; "current"]
          (fst (run sample_environment (Document sample_document)))
  = Some (VFloat (14 # 100)).
Proof.
  destruct (stored_velocity_rounded sample_environment (Document sample_document)
              (fst (run sample_environment (Document sample_document))) eq_refl)
    as (doc' & issues & velocity & current & Hd & _ & _ & Hc & _).
  unfold on_disk. rewrite Hd, Hc.
  vm_compute in Hd. injection Hd as <-. vm_compute in Hc. symmetry. exact Hc.
Defined.

(* ------------------------------------------------------------------ *)
(** ** Further properties: which failure a run reports *)

Lemma stamped_find (issues : list issue) :
  stamped issues -> find offending issues = None.
Proof.
  intros H. apply find_nowhere. intros i Hin. unfold offending.
  destruct (in_state "closed" i && without_marker i) eqn:Hc; [|reflexivity].
  destruct (H i Hin Hc) as [t Ht]. now rewrite Ht.
Qed.

(** X18. The tracker is asked and the velocity computed before the document is
    looked at: with an array of issues and a file that could be read, an
    unreadable closing instant is the failure reported even when the
    document is unusable; with readable instants an empty file is reported
    as TypeError and a document without current_status as KeyError on that
    key.  In each case the file is left as it was. *)
Theorem run_failure_precedence (env : environment) (file : file_state) (w : world)
    (r : outcome unit) (issues : list issue)
    (Hrun : run env file = (w, r))
    (Hfetch : fetch env = FetchReturns (IssueArray issues))
    (Hloads : loads file) :
  (forall i, find offending issues = Some i ->
             r = Raise (timestamp_error i) /\ disk w = file)
  /\ (stamped issues -> file = Emptied -> r = Raise TypeError /\ disk w = file)
  /\ (stamped issues ->
      forall p, file = Document (VDict p) -> dict_get p "current_status" = None ->
                r = Raise (KeyError "current_status") /\ disk w = file).
Proof.
  destruct env as [f n s wr]. cbn [fetch] in Hfetch. subst f.
  destruct (get_phase_status_total issues) as [phases Hp].
  unfold run, update_progress_file, io_bind, load_progress, get_issues, pure,
    dump_progress, io_bind, emit, set_disk in Hrun.
  cbn [disk trace fetch now stamp write fst app iterate] in Hrun.
  rewrite calculate_velocity_find in Hrun.
  split; [|split].
  - intros i E. rewrite E in Hrun.
    destruct Hloads as [->|[doc ->]]; injection Hrun as <- <-; split; reflexivity.
  - intros Hst ->. rewrite (stamped_find issues Hst), Hp in Hrun.
    injection Hrun as <- <-. split; reflexivity.
  - intros Hst p -> Hcs. rewrite (stamped_find issues Hst), Hp in Hrun.
    unfold merge, within in Hrun. cbn [getitem bind] in Hrun. rewrite Hcs in Hrun.
    injection Hrun as <- <-. split; reflexivity.
Qed.

Lemma run_failure_precedence_witness :
  snd (run sample_environment Emptied) = Raise TypeError.
Proof.
  refine (proj1 (proj1 (proj2 (run_failure_precedence sample_environment Emptied
                                 (fst (run sample_environment Emptied))
                                 (snd (run sample_environment Emptied))
                                 sample_issues eq_refl eq_refl _)) _ eq_refl)).
  - now left.
  - intros i [<-|[<-|[]]] H; [eexists; reflexivity | discriminate H].
Defined.
